(** * Food Delivery API: order totals, catalogue queries and seeding

    A shallow embedding of [main.py] and [schemas.py].  Python [float]s are
    IEEE 754 binary64 values, modelled by [spec_float] with [prec = 53] and
    [emax = 1024]; Python [int]s are [Z]; the MongoDB database is a finite
    map from collection names to lists of documents. *)

From Stdlib Require Import ZArith List Bool Ascii String Lia.
From Stdlib Require Import Floats.SpecFloat.
From stdpp Require Import gmap strings list fin_maps.
Import ListNotations.

Local Open Scope string_scope.
Local Open Scope Z_scope.

(** ** Python numbers *)

Module Py.

Abbreviation float := spec_float.

Definition prec : Z := 53.
Definition emax : Z := 1024.

Definition fadd : float -> float -> float := SFadd prec emax.
Definition fmul : float -> float -> float := SFmul prec emax.
Definition fltb : float -> float -> bool := SFltb.
Definition fleb : float -> float -> bool := SFleb.

(** The double nearest to [n / d] (ties to even), for [d > 0]: what a
    decimal literal such as [14.99] denotes, with [n = 1499] and [d = 100]. *)
Definition ratio (n : Z) (d : positive) : float :=
  match n with
  | Z0 => S754_zero false
  | Zpos p =>
      let '(q, e, l) := SFdiv_core_binary prec emax (Zpos p) 0 (Zpos d) 0 in
      binary_round_aux prec emax false q e l
  | Zneg p =>
      let '(q, e, l) := SFdiv_core_binary prec emax (Zpos p) 0 (Zpos d) 0 in
      binary_round_aux prec emax true q e l
  end.

(** Exceptions the handlers can raise. *)
Inductive exn :=
  | HTTPException (status_code : Z) (detail : string)
  | OverflowError (msg : string)
  | RequestValidationError (field : string) (msg : string)
  | InvalidId (oid : string)
  | ValueError (msg : string)
  | Exception (msg : string).

(** The status of the response an exception turns into: the one it carries
    for an [HTTPException], 422 for a body that fails validation, 500 for
    anything unhandled. *)
Definition status_code_of (e : exn) : Z :=
  match e with
  | HTTPException c _ => c
  | RequestValidationError _ _ => 422
  | _ => 500
  end.

Definition client_error (e : exn) : bool :=
  (400 <=? status_code_of e) && (status_code_of e <? 500).

Definition server_error (e : exn) : bool :=
  (500 <=? status_code_of e) && (status_code_of e <? 600).

(** A computation either raises or returns. *)
Definition result (A : Type) : Type := exn + A.

Definition bind {A B} (m : result A) (k : A -> result B) : result B :=
  match m with
  | inl e => inl e
  | inr a => k a
  end.

(** [float(n)] for an [int]: correctly rounded, and an [OverflowError]
    where the rounded value would not be finite. *)
Definition int_to_float (n : Z) : result float :=
  match binary_normalize prec emax n 0 false with
  | S754_infinity _ => inl (OverflowError "int too large to convert to float")
  | f => inr f
  end.

(** [x in l] on a list of strings. *)
Definition contains (x : string) (l : list string) : bool :=
  existsb (String.eqb x) l.

(** A number: an [int] or a [float]. *)
Inductive num :=
  | Int (n : Z)
  | Float (x : float).

(** [x * n] with [x] a float and [n] an int. *)
Definition float_mul_int (x : float) (n : Z) : result float :=
  bind (int_to_float n) (fun y => inr (fmul x y)).

(** [a + b] where [b] is a float: an int on the left is converted first. *)
Definition add_float (a : num) (b : float) : result num :=
  match a with
  | Float x => inr (Float (fadd x b))
  | Int n => bind (int_to_float n) (fun x => inr (Float (fadd x b)))
  end.

(** Round half to even on an exact quotient [n / d], [n >= 0]. *)
Definition div_half_even (n : Z) (d : Z) : Z :=
  let q := n / d in
  let r := n mod d in
  match 2 * r ?= d with
  | Lt => q
  | Gt => q + 1
  | Eq => if Z.even q then q else q + 1
  end.

(** The integer nearest to [100 * m * 2^e] (ties to even), [m > 0]. *)
Definition hundredths (m : positive) (e : Z) : Z :=
  match e with
  | Zneg k => div_half_even (100 * Zpos m) (2 ^ Zpos k)
  | _ => 100 * Zpos m * 2 ^ e
  end.

(** [round(x, 2)] on a float: the exact value of [x] is rounded to two
    decimals, half to even, and the decimal result is read back as the
    nearest double.  Zeros, infinities and NaN round to themselves. *)
Definition round2_float (x : float) : float :=
  match x with
  | S754_finite s m e =>
      match hundredths m e with
      | Zpos h =>
          let '(q, e', l) := SFdiv_core_binary prec emax (Zpos h) 0 100 0 in
          binary_round_aux prec emax s q e' l
      | _ => S754_zero s
      end
  | _ => x
  end.

(** [round(v, 2)]: an int is returned unchanged. *)
Definition round2 (v : num) : num :=
  match v with
  | Int n => Int n
  | Float x => Float (round2_float x)
  end.

(** [sum(term(a) for a in l)]: starts from the int [0] and adds the terms
    from left to right, each computed when its turn comes. *)
Fixpoint sum_from {A} (term : A -> result float) (acc : num) (l : list A)
    : result num :=
  match l with
  | [] => inr acc
  | a :: l' =>
      bind (term a) (fun x =>
      bind (add_float acc x) (fun acc' =>
      sum_from term acc' l'))
  end.

Definition sum {A} (term : A -> result float) (l : list A) : result num :=
  sum_from term (Int 0) l.

(** [math.isfinite(x)]: neither an infinity nor NaN. *)
Definition is_finite (x : float) : bool :=
  match x with
  | S754_zero _ | S754_finite _ _ _ => true
  | S754_infinity _ | S754_nan => false
  end.

(** A [str] is held as the bytes of its UTF-8 encoding; a character
    starts at every byte that is not a continuation byte (10xxxxxx). *)
Definition is_continuation (c : ascii) : bool :=
  let n := N_of_ascii c in (128 <=? n)%N && (n <? 192)%N.

(** [len(s)]: the number of characters. *)
Fixpoint len (s : string) : nat :=
  match s with
  | EmptyString => O
  | String c s' => if is_continuation c then len s' else S (len s')
  end.

(** [s[:n]]: the first [n] characters. *)
Fixpoint take (n : nat) (s : string) : string :=
  match s with
  | EmptyString => EmptyString
  | String c s' =>
      if is_continuation c then String c (take n s')
      else
        match n with
        | O => EmptyString
        | S n' => String c (take n' s')
        end
  end.

(** A [float] field given a number: a float is kept, an int converted. *)
Definition to_float_field (v : num) : result float :=
  match v with
  | Float x => inr x
  | Int n => int_to_float n
  end.

End Py.

Notation "x <- m ;; k" := (Py.bind m (fun x => k))
  (at level 100, m at next level, right associativity).

(** ** schemas.py *)

Module Restaurant.
Record t := mk {
  name : string;
  description : option string;
  image : option string;
  cuisine : string;
  rating : Py.float;            (* Field(4.5, ge=0, le=5) *)
  delivery_time_min : Z         (* Field(25, ge=5, le=120) *)
}.
End Restaurant.

Module MenuItem.
Record t := mk {
  restaurant_id : string;
  name : string;
  description : option string;
  price : Py.float;             (* Field(..., ge=0) *)
  image : option string;
  category : option string
}.
End MenuItem.

Module OrderItem.
Record t := mk {
  menu_item_id : string;
  name : string;
  quantity : Z;                 (* Field(1, ge=1) *)
  price : Py.float              (* float, no bound *)
}.
End OrderItem.

Module Order.
Record t := mk {
  restaurant_id : string;
  customer_name : string;
  address : string;
  phone : string;
  items : list OrderItem.t;
  total : Py.float;
  status : string
}.
End Order.

(** The request model declared in main.py. *)
Module CreateOrder.
Record t := mk {
  restaurant_id : string;
  customer_name : string;
  address : string;
  phone : string;
  items : list OrderItem.t
}.
End CreateOrder.

(** ** Request bodies before validation

    A decoded JSON body: a declared key may be absent, and keys the model
    does not declare (a client-claimed ["total"], say) are carried in
    [extra].  Values already have the JSON type of their field: the type
    checks and conversions of the validator are outside this model. *)

Module Raw.
Record OrderItem := mkItem {
  menu_item_id : option string;
  name : option string;
  quantity : option Z;
  price : option Py.float
}.

Record CreateOrder := mkOrder {
  restaurant_id : option string;
  customer_name : option string;
  address : option string;
  phone : option string;
  items : option (list OrderItem);
  extra : list (string * Py.num)
}.
End Raw.

(** A field declared without a default ([str], [float], [List[...]]). *)
Definition required {A} (field : string) (v : option A) : Py.result A :=
  match v with
  | Some a => inr a
  | None => inl (Py.RequestValidationError field "Field required")
  end.

(** [quantity: int = Field(1, ge=1)]: the default is taken as it is, a
    supplied value is checked against the bound. *)
Definition validate_quantity (v : option Z) : Py.result Z :=
  match v with
  | None => inr 1
  | Some q =>
      if 1 <=? q then inr q
      else inl (Py.RequestValidationError "quantity"
                  "Input should be greater than or equal to 1")
  end.

Definition validate_OrderItem (r : Raw.OrderItem) : Py.result OrderItem.t :=
  menu_item_id <- required "menu_item_id" (Raw.menu_item_id r) ;;
  name <- required "name" (Raw.name r) ;;
  quantity <- validate_quantity (Raw.quantity r) ;;
  price <- required "price" (Raw.price r) ;;
  inr (OrderItem.mk menu_item_id name quantity price).

(** [List[OrderItem]]: every element is validated, in order; the list
    itself carries no length constraint. *)
Fixpoint validate_items (l : list Raw.OrderItem) : Py.result (list OrderItem.t) :=
  match l with
  | [] => inr []
  | r :: l' =>
      i <- validate_OrderItem r ;;
      rest <- validate_items l' ;;
      inr (i :: rest)
  end.

Definition validate_CreateOrder (r : Raw.CreateOrder) : Py.result CreateOrder.t :=
  restaurant_id <- required "restaurant_id" (Raw.restaurant_id r) ;;
  customer_name <- required "customer_name" (Raw.customer_name r) ;;
  address <- required "address" (Raw.address r) ;;
  phone <- required "phone" (Raw.phone r) ;;
  raw_items <- required "items" (Raw.items r) ;;
  items <- validate_items raw_items ;;
  inr (CreateOrder.mk restaurant_id customer_name address phone items).

(** ** The document store *)

(** A 12-byte identifier, as the number its bytes spell. *)
Definition ObjectId : Type := N.

Definition hex_digit (n : N) : ascii :=
  nth (N.to_nat n)
    ["0"; "1"; "2"; "3"; "4"; "5"; "6"; "7";
     "8"; "9"; "a"; "b"; "c"; "d"; "e"; "f"]%char "0"%char.

Fixpoint hex_of (digits : nat) (n : N) : string :=
  match digits with
  | O => EmptyString
  | S k => String.append (hex_of k (n / 16)) (String (hex_digit (n mod 16)%N) EmptyString)
  end.

(** [str(oid)]: 24 lowercase hexadecimal digits. *)
Definition str_ObjectId (o : ObjectId) : string := hex_of 24 o.

Definition hex_value (c : ascii) : option N :=
  let n := N_of_ascii c in
  if ((48 <=? n) && (n <=? 57))%N then Some (n - 48)%N
  else if ((97 <=? n) && (n <=? 102))%N then Some (n - 87)%N
  else if ((65 <=? n) && (n <=? 70))%N then Some (n - 55)%N
  else None.

Fixpoint parse_hex (s : string) (acc : N) : option N :=
  match s with
  | EmptyString => Some acc
  | String c s' =>
      match hex_value c with
      | Some v => parse_hex s' (16 * acc + v)%N
      | None => None
      end
  end.

(** ASCII white space, which [bytes.fromhex] skips. *)
Definition is_space (c : ascii) : bool :=
  let n := N_of_ascii c in ((9 <=? n) && (n <=? 13))%N || (n =? 32)%N.

(** [bytes.fromhex(s)], as the number the bytes spell: two hexadecimal
    digits per byte, white space allowed between the bytes. *)
Fixpoint fromhex (s : string) (acc : N) : option N :=
  match s with
  | EmptyString => Some acc
  | String c s' =>
      if is_space c then fromhex s' acc
      else
        match hex_value c, s' with
        | Some h, String c' s'' =>
            match hex_value c' with
            | Some l => fromhex s'' (256 * acc + 16 * h + l)%N
            | None => None
            end
        | _, _ => None
        end
  end.

(** [ObjectId(s)] on a string: 24 characters that [bytes.fromhex] reads,
    or [InvalidId]. *)
Definition ObjectId_of_str (s : string) : Py.result ObjectId :=
  if Nat.eqb (Py.len s) 24 then
    match fromhex s 0%N with
    | Some n => inr n
    | None => inl (Py.InvalidId s)
    end
  else inl (Py.InvalidId s).

(** The value under ["_id"]: the identifier the store assigned, or its
    string form once [_stringify_id] has run. *)
Inductive id_value :=
  | Oid (o : ObjectId)
  | IdStr (s : string).

(** [str(doc["_id"])]. *)
Definition str_id (v : id_value) : string :=
  match v with
  | Oid o => str_ObjectId o
  | IdStr s => s
  end.

(** What a document holds besides its identifier: the fields of one of
    the models. *)
Inductive model :=
  | Of_Restaurant (r : Restaurant.t)
  | Of_MenuItem (m : MenuItem.t)
  | Of_Order (o : Order.t).

Record document := mkdoc { _id : id_value; fields : model }.

(** A database: its collections by name, each a list of documents in
    insertion order, and the next identifier to hand out. *)
Record database := mkdb {
  collections : gmap string (list document);
  next_oid : N
}.

(** [db.list_collection_names()] *)
Definition list_collection_names (d : database) : list string :=
  (map_to_list (collections d)).*1.

(** [list(db[name].find())]: a collection that does not exist has no
    documents. *)
Definition find (d : database) (name : string) : list document :=
  default [] (collections d !! name).

(** [db[name].count_documents({})] *)
Definition count_documents (d : database) (name : string) : Z :=
  Z.of_nat (length (find d name)).

(** [db[name].insert_one(doc)]: appends, creating the collection. *)
Definition insert_one (d : database) (name : string) (doc : document) : database :=
  {| collections := <[name := (find d name ++ [doc])%list]> (collections d);
     next_oid := next_oid d |}.

(** Modelled from the spec: [database.create_document], not among the
    sources.  The store supports insert; every record gets a unique,
    store-assigned identifier, and the caller receives it as a string. *)
Definition create_document (collection_name : string) (data : model)
    (d : database) : string * database :=
  let oid := next_oid d in
  let d' := insert_one d collection_name {| _id := Oid oid; fields := data |} in
  (str_ObjectId oid,
   {| collections := collections d'; next_oid := (oid + 1)%N |}).

(** The string held under a key of a document, if the key is there and
    holds a string. *)
Definition str_field (m : model) (key : string) : option string :=
  match m with
  | Of_Restaurant r =>
      if String.eqb key "name" then Some (Restaurant.name r)
      else if String.eqb key "description" then Restaurant.description r
      else if String.eqb key "image" then Restaurant.image r
      else if String.eqb key "cuisine" then Some (Restaurant.cuisine r)
      else None
  | Of_MenuItem i =>
      if String.eqb key "restaurant_id" then Some (MenuItem.restaurant_id i)
      else if String.eqb key "name" then Some (MenuItem.name i)
      else if String.eqb key "description" then MenuItem.description i
      else if String.eqb key "image" then MenuItem.image i
      else if String.eqb key "category" then MenuItem.category i
      else None
  | Of_Order o =>
      if String.eqb key "restaurant_id" then Some (Order.restaurant_id o)
      else if String.eqb key "customer_name" then Some (Order.customer_name o)
      else if String.eqb key "address" then Some (Order.address o)
      else if String.eqb key "phone" then Some (Order.phone o)
      else if String.eqb key "status" then Some (Order.status o)
      else None
  end.

(** A document matches a filter when every key of the filter holds that
    string in the document. *)
Definition matches (filter_dict : list (string * string)) (doc : document) : bool :=
  forallb (fun '(key, value) =>
             match str_field (fields doc) key with
             | Some s => String.eqb s value
             | None => false
             end) filter_dict.

(** Modelled from the spec: [database.get_documents], not among the
    sources.  The store supports filtered retrieval, in storage order, by
    string equality on the stored value; without a store handle every
    store-dependent operation fails with a server error. *)
Definition get_documents (collection_name : string)
    (filter_dict : list (string * string)) (db : option database)
    : Py.result (list document) :=
  match db with
  | None => inl (Py.Exception "Database not available")
  | Some d => inr (List.filter (matches filter_dict) (find d collection_name))
  end.

(** ** main.py *)

Definition not_configured : Py.exn :=
  Py.HTTPException 500 "Database not configured".

(** [_stringify_id(doc)] *)
Definition _stringify_id (doc : document) : document :=
  {| _id := IdStr (str_id (_id doc)); fields := fields doc |}.

(** The dict [created] of [seed_data]. *)
Record seeded := mkseeded { restaurants : Z; menuitem : Z }.

Definition sample_restaurants : list Restaurant.t :=
  [ Restaurant.mk "Pasta Palace" (Some "Homemade pasta and sauces")
      (Some "https://images.unsplash.com/photo-1521389508051-d7ffb5dc8bbf")
      "Italian" (Py.ratio 46 10) 30;
    Restaurant.mk "Sushi Express" (Some "Fresh nigiri and rolls")
      (Some "https://images.unsplash.com/photo-1544025162-d76694265947")
      "Japanese" (Py.ratio 48 10) 25;
    Restaurant.mk "Spice Route" (Some "Curries, biryani and more")
      (Some "https://images.unsplash.com/photo-1604908554027-0f2f74a9cfc7")
      "Indian" (Py.ratio 45 10) 35 ].

(** The list [items] of [seed_data], given the three identifiers. *)
Definition sample_items (first second third : id_value) : list MenuItem.t :=
  [ MenuItem.mk (str_id first) "Spaghetti Carbonara"
      (Some "Creamy sauce with pancetta") (Py.ratio 1499 100)
      (Some "https://images.unsplash.com/photo-1603133872878-684f208fb86a")
      (Some "Mains");
    MenuItem.mk (str_id first) "Margherita Pizza"
      (Some "Classic tomatoes and mozzarella") (Py.ratio 125 10)
      (Some "https://images.unsplash.com/photo-1548365328-9f547fb09530")
      (Some "Mains");
    MenuItem.mk (str_id second) "Salmon Nigiri (6)"
      (Some "Fresh cut salmon over rice") (Py.ratio 1199 100)
      (Some "https://images.unsplash.com/photo-1562158070-1a4f3f8f7c21")
      (Some "Sushi");
    MenuItem.mk (str_id third) "Chicken Tikka Masala"
      (Some "Charred chicken in spicy sauce") (Py.ratio 1375 100)
      (Some "https://images.unsplash.com/photo-1604908177031-842fa9a316d2")
      (Some "Mains") ].

(** The first [if] of [seed_data]: the loop over [sample_restaurants]. *)
Definition seed_restaurants (names : list string) (st : database * seeded)
    : database * seeded :=
  if negb (Py.contains "restaurant" names)
     || (count_documents (fst st) "restaurant" =? 0)
  then
    fold_left
      (fun st r =>
         (snd (create_document "restaurant" (Of_Restaurant r) (fst st)),
          {| restaurants := restaurants (snd st) + 1;
             menuitem := menuitem (snd st) |}))
      sample_restaurants st
  else st.

(** The second [if] of [seed_data]: the restaurants are read back from the
    store, and the loop over [items] runs only if there is one. *)
Definition seed_menuitems (names : list string) (st : database * seeded)
    : database * seeded :=
  if negb (Py.contains "menuitem" names)
     || (count_documents (fst st) "menuitem" =? 0)
  then
    let rs := find (fst st) "restaurant" in
    match rs with
    | [] => st
    | r0 :: _ =>
        let first := _id r0 in
        let second :=
          if 1 <? Z.of_nat (length rs) then _id (nth 1 rs r0) else first in
        let third :=
          if 2 <? Z.of_nat (length rs) then _id (nth 2 rs r0) else first in
        fold_left
          (fun st i =>
             (snd (create_document "menuitem" (Of_MenuItem i) (fst st)),
              {| restaurants := restaurants (snd st);
                 menuitem := menuitem (snd st) + 1 |}))
          (sample_items first second third) st
    end
  else st.

(** [POST /seed] *)
Definition seed_data (db : option database)
    : option database * Py.result seeded :=
  match db with
  | None => (None, inl not_configured)
  | Some d =>
      let names := list_collection_names d in
      let created := {| restaurants := 0; menuitem := 0 |} in
      let st := seed_menuitems names (seed_restaurants names (d, created)) in
      (Some (fst st), inr (snd st))
  end.

(** [GET /restaurants] *)
Definition list_restaurants (db : option database)
    : Py.result (list document) :=
  docs <- get_documents "restaurant" [] db ;;
  inr (map _stringify_id docs).

(** [GET /restaurants/{restaurant_id}/menu]: the identifier is parsed and
    the outcome dropped, whether a value or an exception. *)
Definition list_menu (restaurant_id : string) (db : option database)
    : Py.result (list document) :=
  let _ :=
    match ObjectId_of_str restaurant_id with
    | inr oid => Some oid
    | inl _ => None
    end in
  docs <- get_documents "menuitem" [("restaurant_id", restaurant_id)] db ;;
  inr (map _stringify_id docs).

(** The dict [create_order] returns. *)
Record order_created := mkcreated {
  order_id : string;
  status : string;
  total : Py.float
}.

(** [POST /orders], from a validated payload. *)
Definition create_order (payload : CreateOrder.t) (db : option database)
    : option database * Py.result order_created :=
  match db with
  | None => (None, inl not_configured)
  | Some d =>
      match
        total <- Py.sum (fun item =>
                   Py.float_mul_int (OrderItem.price item)
                                    (OrderItem.quantity item))
                 (CreateOrder.items payload) ;;
        Py.to_float_field (Py.round2 total)
      with
      | inl e => (Some d, inl e)
      | inr total =>
          let order :=
            Order.mk (CreateOrder.restaurant_id payload)
              (CreateOrder.customer_name payload)
              (CreateOrder.address payload)
              (CreateOrder.phone payload)
              (CreateOrder.items payload)
              total "pending" in
          let (oid, d') := create_document "order" (Of_Order order) d in
          (Some d',
           inr {| order_id := oid; status := "pending";
                  total := Order.total order |})
      end
  end.

(** The response is written as JSON with [allow_nan=False]: a total that
    is not finite cannot be written, and the route fails after the
    handler has returned. *)
Definition render (r : order_created) : Py.result order_created :=
  if Py.is_finite (total r) then inr r
  else inl (Py.ValueError "Out of range float values are not JSON compliant").

(** The route as the framework runs it: the body is validated against
    [CreateOrder] first, the handler is called only with a payload that
    passed, and what it returns is rendered. *)
Definition post_orders (body : Raw.CreateOrder) (db : option database)
    : option database * Py.result order_created :=
  match validate_CreateOrder body with
  | inl e => (db, inl e)
  | inr payload =>
      match create_order payload db with
      | (db', inr r) => (db', render r)
      | (db', inl e) => (db', inl e)
      end
  end.

(** ** Auxiliary definitions for the seeding loops *)

(** The documents a run of [create_document] calls appends, the first one
    under identifier [oid]. *)
Fixpoint new_documents (oid : N) (ms : list model) : list document :=
  match ms with
  | [] => []
  | m :: ms' => mkdoc (Oid oid) m :: new_documents (oid + 1) ms'
  end.

(** One turn of a seeding loop: a document is created and a counter of
    [created] goes up. *)
Definition loop_step {A} (name : string) (wrap : A -> model)
    (bump : seeded -> seeded) (st : database * seeded) (a : A)
    : database * seeded :=
  (snd (create_document name (wrap a) (fst st)), bump (snd st)).

Definition bump_restaurants (c : seeded) : seeded :=
  {| restaurants := restaurants c + 1; menuitem := menuitem c |}.

Definition bump_menuitem (c : seeded) : seeded :=
  {| restaurants := restaurants c; menuitem := menuitem c + 1 |}.

(** The identifiers the menu items are linked to, read off the restaurants
    in the store: the first, then the second and third where they exist. *)
Definition linked_ids (rs : list document) : option (id_value * id_value * id_value) :=
  match rs with
  | [] => None
  | r0 :: _ =>
      Some (_id r0,
            if 1 <? Z.of_nat (length rs) then _id (nth 1 rs r0) else _id r0,
            if 2 <? Z.of_nat (length rs) then _id (nth 2 rs r0) else _id r0)
  end.

(** ** The total as the specification words it *)

(** [float(n)] where it exists: the nearest double. *)
Definition float_of_int (n : Z) : Py.float :=
  binary_normalize Py.prec Py.emax n 0 false.

(** The ints [float(n)] accepts: those whose nearest double is finite. *)
Definition convertible (n : Z) : bool :=
  match float_of_int n with
  | S754_infinity _ => false
  | _ => true
  end.

(** Unit price times quantity. *)
Definition line_total (i : OrderItem.t) : Py.float :=
  Py.fmul (OrderItem.price i) (float_of_int (OrderItem.quantity i)).

(** The sum over all items of price times quantity, rounded to two
    decimal places. *)
Definition rounded_total (items : list OrderItem.t) : Py.float :=
  Py.round2_float
    (fold_left Py.fadd (map line_total items) (S754_zero false)).

Definition quantities_convertible (items : list OrderItem.t) : bool :=
  forallb (fun i => convertible (OrderItem.quantity i)) items.

Definition overflow : Py.exn :=
  Py.OverflowError "int too large to convert to float".

(** The order [create_order] builds from a payload and a total. *)
Definition order_of (payload : CreateOrder.t) (total : Py.float) : Order.t :=
  Order.mk (CreateOrder.restaurant_id payload)
    (CreateOrder.customer_name payload)
    (CreateOrder.address payload)
    (CreateOrder.phone payload)
    (CreateOrder.items payload)
    total "pending".

(** A body with its undeclared keys replaced. *)
Definition with_extra (body : Raw.CreateOrder) (extra : list (string * Py.num))
    : Raw.CreateOrder :=
  Raw.mkOrder (Raw.restaurant_id body) (Raw.customer_name body)
    (Raw.address body) (Raw.phone body) (Raw.items body) extra.

Definition price_times_quantity (item : OrderItem.t) : Py.result Py.float :=
  Py.float_mul_int (OrderItem.price item) (OrderItem.quantity item).

(** ** Inputs used in the examples *)

Definition db0 : database := mkdb ∅ 0.

Definition body_with (its : list Raw.OrderItem) : Raw.CreateOrder :=
  Raw.mkOrder (Some "no-such-restaurant") (Some "Ada") (Some "1 Main St")
    (Some "555-0100") (Some its) [].

Definition raw_item (quantity : Z) (price : Py.float) : Raw.OrderItem :=
  Raw.mkItem (Some "no-such-item") (Some "Dish") (Some quantity) (Some price).

(** Two items, the second with quantity 0. *)
Definition items_with_zero : list Raw.OrderItem :=
  [raw_item 2 (Py.ratio 1499 100); raw_item 0 (Py.ratio 1250 100)].

(** One item for a dish and a restaurant that no store knows, before and
    after validation. *)
Definition body_unknown_ids : Raw.CreateOrder :=
  body_with [raw_item 2 (Py.ratio 1499 100)].

Definition payload_unknown_ids : CreateOrder.t :=
  CreateOrder.mk "no-such-restaurant" "Ada" "1 Main St" "555-0100"
    [OrderItem.mk "no-such-item" "Dish" 2 (Py.ratio 1499 100)].

(** A body is rejected when the route answers with a validation error and
    the store is as it was. *)
Definition rejected {A} (db : option database)
    (out : option database * Py.result A) : Prop :=
  exists field msg, out = (db, inl (Py.RequestValidationError field msg)).

(** The key under which menu items refer to their restaurant. *)
Definition reference (doc : document) : option string :=
  str_field (fields doc) "restaurant_id".

Definition refers_to (x : string) (doc : document) : bool :=
  match reference doc with
  | Some s => String.eqb s x
  | None => false
  end.

Definition db_seeded : database :=
  match fst (seed_data (Some db0)) with
  | Some d => d
  | None => db0
  end.

(** The bounds the schemas put on their fields. *)
Definition valid_Restaurant (r : Restaurant.t) : bool :=
  Py.fleb (S754_zero false) (Restaurant.rating r)
  && Py.fleb (Restaurant.rating r) (Py.ratio 5 1)
  && (5 <=? Restaurant.delivery_time_min r)
  && (Restaurant.delivery_time_min r <=? 120).

Definition valid_MenuItem (m : MenuItem.t) : bool :=
  Py.fleb (S754_zero false) (MenuItem.price m).

(** ** The other handlers of main.py *)

(** The list under ["collections"] that [get_schema] returns. *)
Definition get_schema : list string :=
  ["user"; "product"; "restaurant"; "menuitem"; "order"].

(** The dict [test_database] returns. *)
Module Diagnostics.
Record t := mk {
  backend : string;
  database : string;
  database_url : option string;
  database_name : option string;
  connection_status : string;
  collections : list string
}.
End Diagnostics.

(** Truth of a value that is [None] or a string: [None] and the empty
    string are false. *)
Definition truthy (v : option string) : bool :=
  match v with
  | None | Some EmptyString => false
  | Some _ => true
  end.

(** [GET /test].  What the function reads from outside is passed in: the
    value of the environment variable DATABASE_URL, the handle [db], its
    attribute [name] where it has one, and what
    [db.list_collection_names()] does on this handle: the names, or the
    text of the exception it raises.  Nothing else in the outer [try] can
    raise. *)
Definition test_database (DATABASE_URL : option string)
    (db : option database) (name : option string)
    (list_names : database -> string + list string) : Diagnostics.t :=
  match db with
  | Some d =>
      let database_url :=
        if truthy DATABASE_URL then "✅ Set" else "❌ Not Set" in
      let database_name :=
        match name with
        | Some n => n
        | None => "✅ Connected"
        end in
      match list_names d with
      | inr names =>
          Diagnostics.mk "✅ Running" "✅ Connected & Working"
            (Some database_url) (Some database_name) "Connected"
            (firstn 10 names)
      | inl e =>
          Diagnostics.mk "✅ Running"
            (String.append "⚠️  Connected but Error: " (Py.take 50 e))
            (Some database_url) (Some database_name) "Connected" []
      end
  | None =>
      Diagnostics.mk "✅ Running" "⚠️  Available but not initialized"
        None None "Not Connected" []
  end.

(** ** The other models of schemas.py *)

Module User.
Record t := mk {
  name : string;
  email : string;
  address : string;
  age : option Z;               (* Field(None, ge=0, le=120) *)
  is_active : bool              (* Field(True) *)
}.
End User.

Module Product.
Record t := mk {
  title : string;
  description : option string;
  price : Py.float;             (* Field(..., ge=0) *)
  category : string;
  in_stock : bool               (* Field(True) *)
}.
End Product.

(** The keyword arguments a model is built from, or the keys of a decoded
    body: each may be absent. *)
Module Input.
Record Restaurant := mkRestaurant {
  r_name : option string;
  r_description : option string;
  r_image : option string;
  r_cuisine : option string;
  r_rating : option Py.float;
  r_delivery_time_min : option Z
}.

Record MenuItem := mkMenuItem {
  m_restaurant_id : option string;
  m_name : option string;
  m_description : option string;
  m_price : option Py.float;
  m_image : option string;
  m_category : option string
}.

Record User := mkUser {
  u_name : option string;
  u_email : option string;
  u_address : option string;
  u_age : option Z;
  u_is_active : option bool
}.

Record Product := mkProduct {
  p_title : option string;
  p_description : option string;
  p_price : option Py.float;
  p_category : option string;
  p_in_stock : option bool
}.
End Input.

(** [ge=lo] on a float. *)
Definition check_ge (field : string) (lo x : Py.float) : Py.result Py.float :=
  if Py.fleb lo x then inr x
  else inl (Py.RequestValidationError field
              "Input should be greater than or equal to the bound").

(** [le=hi] on a float. *)
Definition check_le (field : string) (hi x : Py.float) : Py.result Py.float :=
  if Py.fleb x hi then inr x
  else inl (Py.RequestValidationError field
              "Input should be less than or equal to the bound").

(** [ge=lo, le=hi] on an int. *)
Definition check_range (field : string) (lo hi n : Z) : Py.result Z :=
  if lo <=? n then
    if n <=? hi then inr n
    else inl (Py.RequestValidationError field
                "Input should be less than or equal to the bound")
  else inl (Py.RequestValidationError field
              "Input should be greater than or equal to the bound").

(** [Restaurant(...)]: a default is taken without being checked. *)
Definition validate_Restaurant (r : Input.Restaurant) : Py.result Restaurant.t :=
  name <- required "name" (Input.r_name r) ;;
  cuisine <- required "cuisine" (Input.r_cuisine r) ;;
  rating <-
    match Input.r_rating r with
    | None => inr (Py.ratio 45 10)
    | Some x =>
        x' <- check_ge "rating" (S754_zero false) x ;;
        check_le "rating" (Py.ratio 5 1) x'
    end ;;
  delivery_time_min <-
    match Input.r_delivery_time_min r with
    | None => inr 25
    | Some n => check_range "delivery_time_min" 5 120 n
    end ;;
  inr (Restaurant.mk name (Input.r_description r) (Input.r_image r) cuisine
         rating delivery_time_min).

(** [MenuItem(...)] *)
Definition validate_MenuItem (m : Input.MenuItem) : Py.result MenuItem.t :=
  restaurant_id <- required "restaurant_id" (Input.m_restaurant_id m) ;;
  name <- required "name" (Input.m_name m) ;;
  price0 <- required "price" (Input.m_price m) ;;
  price <- check_ge "price" (S754_zero false) price0 ;;
  inr (MenuItem.mk restaurant_id name (Input.m_description m) price
         (Input.m_image m) (Input.m_category m)).

(** [User(...)] *)
Definition validate_User (u : Input.User) : Py.result User.t :=
  name <- required "name" (Input.u_name u) ;;
  email <- required "email" (Input.u_email u) ;;
  address <- required "address" (Input.u_address u) ;;
  age <-
    match Input.u_age u with
    | None => inr None
    | Some n => n' <- check_range "age" 0 120 n ;; inr (Some n')
    end ;;
  inr (User.mk name email address age (default true (Input.u_is_active u))).

(** [Product(...)] *)
Definition validate_Product (p : Input.Product) : Py.result Product.t :=
  title <- required "title" (Input.p_title p) ;;
  price0 <- required "price" (Input.p_price p) ;;
  price <- check_ge "price" (S754_zero false) price0 ;;
  category <- required "category" (Input.p_category p) ;;
  inr (Product.mk title (Input.p_description p) price category
         (default true (Input.p_in_stock p))).

Definition valid_User (u : User.t) : bool :=
  match User.age u with
  | None => true
  | Some n => (0 <=? n) && (n <=? 120)
  end.

Definition valid_Product (p : Product.t) : bool :=
  Py.fleb (S754_zero false) (Product.price p).

(** The keyword arguments [seed_data] passes for a restaurant and for a
    menu item: every field it sets, nothing left to a default except
    where the source leaves it out. *)
Definition restaurant_kwargs (r : Restaurant.t) : Input.Restaurant :=
  Input.mkRestaurant (Some (Restaurant.name r)) (Restaurant.description r)
    (Restaurant.image r) (Some (Restaurant.cuisine r))
    (Some (Restaurant.rating r)) (Some (Restaurant.delivery_time_min r)).

Definition menu_item_kwargs (m : MenuItem.t) : Input.MenuItem :=
  Input.mkMenuItem (Some (MenuItem.restaurant_id m)) (Some (MenuItem.name m))
    (MenuItem.description m) (Some (MenuItem.price m)) (MenuItem.image m)
    (MenuItem.category m).

(** ** Bodies as the validator sees them *)

Definition present {A} (v : option A) : bool :=
  match v with
  | Some _ => true
  | None => false
  end.

(** An item the validator lets through. *)
Definition well_formed_item (r : Raw.OrderItem) : bool :=
  present (Raw.menu_item_id r) && present (Raw.name r)
  && match Raw.quantity r with
     | None => true
     | Some q => 1 <=? q
     end
  && present (Raw.price r).

(** A body the validator lets through. *)
Definition well_formed (body : Raw.CreateOrder) : bool :=
  present (Raw.restaurant_id body) && present (Raw.customer_name body)
  && present (Raw.address body) && present (Raw.phone body)
  && match Raw.items body with
     | None => false
     | Some its => forallb well_formed_item its
     end.

(** The item and the payload a well-formed body stands for: what is
    there is kept, a missing quantity is 1. *)
Definition item_of (r : Raw.OrderItem) : OrderItem.t :=
  OrderItem.mk (default EmptyString (Raw.menu_item_id r)) (default EmptyString (Raw.name r))
    (default 1 (Raw.quantity r)) (default (S754_zero false) (Raw.price r)).

Definition payload_of (body : Raw.CreateOrder) : CreateOrder.t :=
  CreateOrder.mk (default EmptyString (Raw.restaurant_id body))
    (default EmptyString (Raw.customer_name body)) (default EmptyString (Raw.address body))
    (default EmptyString (Raw.phone body))
    (map item_of (default [] (Raw.items body))).

(** More inputs for the examples. *)
Definition db_restaurants_only : database :=
  mkdb {[ "restaurant" :=
            [ mkdoc (Oid 1%N)
                (Of_Restaurant
                   (Restaurant.mk "Noodle Bar" None None "Thai"
                      (Py.ratio 45 10) 25)) ] ]} 2.

Definition body_no_quantity : Raw.CreateOrder :=
  body_with [Raw.mkItem (Some "m1") (Some "Dish") None (Some (Py.ratio 1499 100))].

Definition body_no_phone : Raw.CreateOrder :=
  Raw.mkOrder (Some "r1") (Some "Ada") (Some "1 Main St") None
    (Some [raw_item 1 (Py.ratio 1499 100)]) [].

(** What seeding the empty store reports. *)
Definition fresh_counts : seeded := {| restaurants := 3; menuitem := 4 |}.

(** ** The link from menu items to restaurants *)

(** The string [s] is the string form of the identifier of [r]. *)
Definition names_restaurant (s : string) (r : document) : bool :=
  match _id r with
  | Oid o => String.eqb s (str_ObjectId o)
  | IdStr _ => false
  end.

(** The invariant of the data model: every document of the menuitem
    collection that refers to a restaurant refers to one that is in the
    store, by the string form of its identifier. *)
Definition linked (d : database) : bool :=
  forallb
    (fun doc =>
       match reference doc with
       | Some s => existsb (names_restaurant s) (find d "restaurant")
       | None => true
       end)
    (find d "menuitem").

(** A body whose total is too large for a float: 1e308 ten times. *)
Definition body_huge_total : Raw.CreateOrder :=
  body_with [raw_item 10 (Py.ratio (10 ^ 308) 1)].

(** The exception raised when the response cannot be written. *)
Definition not_json : Py.exn :=
  Py.ValueError "Out of range float values are not JSON compliant".

(** An error text of sixty characters of two bytes each. *)
Definition long_error : string :=
  "éééééééééééééééééééééééééééééééééééééééééééééééééééééééééééé".

(** * Proofs *)

(** ** Facts about the store *)

Section Store.
Implicit Types (d : database) (name : string) (doc : document).

Lemma find_insert_one d name doc :
  find (insert_one d name doc) name = (find d name ++ [doc])%list.
Proof. unfold find at 1, insert_one; simpl. by rewrite lookup_insert_eq. Qed.

Lemma find_insert_one_ne d name name' doc :
  name <> name' -> find (insert_one d name doc) name' = find d name'.
Proof.
  intros Hne. unfold find, insert_one; simpl. by rewrite lookup_insert_ne.
Qed.

Lemma find_create_document d name data :
  find (snd (create_document name data d)) name
  = (find d name ++ [mkdoc (Oid (next_oid d)) data])%list.
Proof. apply find_insert_one. Qed.

Lemma find_create_document_ne d name name' data :
  name <> name' ->
  find (snd (create_document name data d)) name' = find d name'.
Proof. apply find_insert_one_ne. Qed.

(** A name is listed exactly when the collection exists. *)
Lemma contains_collection d name :
  Py.contains name (list_collection_names d) = true
  <-> is_Some (collections d !! name).
Proof.
  unfold Py.contains, list_collection_names. rewrite existsb_exists. split.
  - intros (x & Hin & Heq). apply String.eqb_eq in Heq. subst x.
    apply list_elem_of_In, list_elem_of_fmap in Hin.
    destruct Hin as ([k v] & -> & Hkv). simpl.
    apply elem_of_map_to_list in Hkv. eauto.
  - intros [v Hv]. exists name. split; [| apply String.eqb_refl].
    apply list_elem_of_In, list_elem_of_fmap. exists (name, v).
    split; [done | by apply elem_of_map_to_list].
Qed.

(** A collection that holds a document is listed and counts above zero. *)
Lemma nonempty_collection d name :
  find d name <> [] ->
  negb (Py.contains name (list_collection_names d))
  || (count_documents d name =? 0) = false.
Proof.
  intros Hne. apply orb_false_iff. split.
  - apply negb_false_iff, contains_collection.
    unfold find in Hne. destruct (collections d !! name); [eauto | done].
  - apply Z.eqb_neq. unfold count_documents.
    destruct (find d name); [done | simpl; lia].
Qed.
End Store.

(** ** Facts about the two seeding loops *)

Lemma length_new_documents oid ms :
  length (new_documents oid ms) = length ms.
Proof. revert oid. induction ms; intros; simpl; [done | by rewrite IHms]. Qed.

Section Loops.
Context {A : Type} (name : string) (wrap : A -> model)
        (bump : seeded -> seeded).

Lemma loop_find (l : list A) (st : database * seeded) :
  find (fst (fold_left (loop_step name wrap bump) l st)) name
  = (find (fst st) name
     ++ new_documents (next_oid (fst st)) (map wrap l))%list.
Proof.
  revert st. induction l as [|a l IH]; intros st; simpl.
  - by rewrite app_nil_r.
  - rewrite IH. unfold loop_step at 1 2. cbn [fst snd].
    rewrite find_create_document, <- app_assoc. simpl. done.
Qed.

Lemma loop_find_ne (l : list A) (st : database * seeded) name' :
  name <> name' ->
  find (fst (fold_left (loop_step name wrap bump) l st)) name' = find (fst st) name'.
Proof.
  intros Hne. revert st. induction l as [|a l IH]; intros st; simpl; [done|].
  rewrite IH. unfold loop_step; simpl. by apply find_insert_one_ne.
Qed.

Lemma loop_created (l : list A) (st : database * seeded) :
  snd (fold_left (loop_step name wrap bump) l st) = Nat.iter (length l) bump (snd st).
Proof.
  revert st. induction l as [|a l IH]; intros st; simpl; [done|].
  rewrite IH. unfold loop_step; simpl. clear IH.
  induction (length l); simpl; [done | by rewrite IHn].
Qed.
End Loops.

(** What the first phase leaves behind. *)
Lemma seed_restaurants_spec names d c :
  let st' := seed_restaurants names (d, c) in
  exists new,
    (new = [] \/
     new = new_documents (next_oid d) (map Of_Restaurant sample_restaurants))
    /\ find (fst st') "restaurant" = (find d "restaurant" ++ new)%list
    /\ find (fst st') "menuitem" = find d "menuitem"
    /\ snd st' = {| restaurants := restaurants c + Z.of_nat (length new);
                    menuitem := menuitem c |}
    /\ find (fst st') "restaurant" <> [].
Proof.
  cbv zeta. unfold seed_restaurants. cbn [fst snd].
  destruct (negb _ || _) eqn:Hcond.
  - eexists. split; [right; reflexivity|].
    change (fun st r => _) with (loop_step "restaurant" Of_Restaurant bump_restaurants).
    rewrite loop_find, loop_find_ne, loop_created by done. simpl.
    repeat split.
    + unfold bump_restaurants; simpl. f_equal. lia.
    + intros H. by apply app_eq_nil in H as [_ ?].
  - exists []. split; [by left|]. rewrite app_nil_r. simpl.
    repeat split.
    + destruct c; simpl. f_equal. lia.
    + intros Hnil. apply orb_false_iff in Hcond as [_ Hcount].
      unfold count_documents in Hcount. by rewrite Hnil in Hcount.
Qed.

(** What the second phase leaves behind. *)
Lemma seed_menuitems_spec names d c :
  let st' := seed_menuitems names (d, c) in
  let rs := find d "restaurant" in
  exists new,
    (new = [] \/
     exists first second third,
       linked_ids rs = Some (first, second, third) /\
       new = new_documents (next_oid d)
               (map Of_MenuItem (sample_items first second third)))
    /\ find (fst st') "menuitem" = (find d "menuitem" ++ new)%list
    /\ find (fst st') "restaurant" = rs
    /\ snd st' = {| restaurants := restaurants c;
                    menuitem := menuitem c + Z.of_nat (length new) |}
    /\ (rs <> [] -> find (fst st') "menuitem" <> []).
Proof.
  cbv zeta. unfold seed_menuitems. cbn [fst snd].
  assert (Hsame : {| restaurants := restaurants c;
                     menuitem := menuitem c + Z.of_nat (@length document []) |} = c).
  { destruct c; simpl. f_equal. lia. }
  destruct (negb _ || _) eqn:Hcond.
  - destruct (find d "restaurant") as [|r0 rs'] eqn:Hrs.
    + exists []. rewrite app_nil_r. simpl snd. rewrite Hsame.
      repeat split; try done. by left.
    + eexists. split.
      { right. do 3 eexists. split; reflexivity. }
      change (fun st i => _) with (loop_step "menuitem" Of_MenuItem bump_menuitem).
      rewrite loop_find, loop_find_ne, loop_created by done. simpl fst.
      repeat split; try done.
      * simpl. unfold bump_menuitem; simpl. f_equal. lia.
      * intros _ H. by apply app_eq_nil in H as [_ ?].
  - exists []. rewrite app_nil_r. cbn [fst snd]. rewrite Hsame.
    repeat split; try done; [by left|].
    intros _ Hnil. apply orb_false_iff in Hcond as [_ Hcount].
    unfold count_documents in Hcount. by rewrite Hnil in Hcount.
Qed.

(** After a call to [seed_data] both collections hold documents. *)
Lemma seed_data_fills d :
  exists d1 c1,
    seed_data (Some d) = (Some d1, inr c1)
    /\ find d1 "restaurant" <> [] /\ find d1 "menuitem" <> [].
Proof.
  unfold seed_data.
  set (names := list_collection_names d).
  set (c0 := {| restaurants := 0; menuitem := 0 |}).
  destruct (seed_restaurants_spec names d c0) as (new1 & _ & _ & _ & _ & Hr).
  destruct (seed_restaurants names (d, c0)) as [d' c'] eqn:Hst1.
  destruct (seed_menuitems_spec names d' c') as (new2 & _ & _ & Hsame & _ & Hm).
  cbn [fst] in Hr. do 2 eexists. split; [reflexivity|].
  split; [by rewrite Hsame | by apply Hm].
Qed.

(** With both collections holding documents, [seed_data] changes nothing. *)
Lemma seed_data_noop d :
  find d "restaurant" <> [] -> find d "menuitem" <> [] ->
  seed_data (Some d) = (Some d, inr {| restaurants := 0; menuitem := 0 |}).
Proof.
  intros Hr Hm. unfold seed_data, seed_menuitems, seed_restaurants.
  cbn [fst snd]. rewrite (nonempty_collection _ _ Hr). cbn [fst snd].
  by rewrite (nonempty_collection _ _ Hm).
Qed.

(** The fallback of [seed_data] written with a default: the k-th
    restaurant where there is one, the first otherwise. *)
Lemma linked_ids_nth r0 rest :
  linked_ids (r0 :: rest)
  = Some (_id r0, _id (nth 1 (r0 :: rest) r0), _id (nth 2 (r0 :: rest) r0)).
Proof.
  unfold linked_ids. destruct rest as [|r1 [|r2 rest]]; try reflexivity.
  assert (H1 : (1 <? Z.of_nat (length (r0 :: r1 :: r2 :: rest))) = true)
    by (apply Z.ltb_lt; simpl length; lia).
  assert (H2 : (2 <? Z.of_nat (length (r0 :: r1 :: r2 :: rest))) = true)
    by (apply Z.ltb_lt; simpl length; lia).
  by rewrite H1, H2.
Qed.

(** ** The claims on seeding and on the missing store handle *)

(** C8: when the store handle was never initialised ([db] is [None]), the
    seed operation and the create-order operation each stop at once with
    the exception "Database not configured", status 500, a server error;
    there is no store afterwards either, so nothing was written.  The
    route for orders, which validates the body first, does not succeed or
    write without a store either. *)
Theorem unavailable_without_store :
  seed_data None = (None, inl not_configured)
  /\ (forall payload, create_order payload None = (None, inl not_configured))
  /\ Py.status_code_of not_configured = 500
  /\ Py.server_error not_configured = true
  /\ (forall body, exists e, post_orders body None = (None, inl e)).
Proof.
  repeat split. intros body. unfold post_orders.
  destruct (validate_CreateOrder body) as [e|payload]; eauto.
Qed.

(** C5: seeding is idempotent.  Once the restaurant and the menuitem
    collections both hold documents, a call to seed leaves the store as it
    is and reports zero and zero; and after any first call a second call
    is in that situation, so two calls in sequence leave exactly the
    restaurants and menu items of the first. *)
Theorem seed_idempotent :
  (forall d,
     find d "restaurant" <> [] -> find d "menuitem" <> [] ->
     seed_data (Some d)
     = (Some d, inr {| restaurants := 0; menuitem := 0 |}))
  /\ (forall d, exists d1 c1,
        seed_data (Some d) = (Some d1, inr c1)
        /\ seed_data (Some d1)
           = (Some d1, inr {| restaurants := 0; menuitem := 0 |})).
Proof.
  split; [apply seed_data_noop|].
  intros d. destruct (seed_data_fills d) as (d1 & c1 & H & Hr & Hm).
  exists d1, c1. split; [done | by apply seed_data_noop].
Qed.

Lemma seed_idempotent_witness :
  find db_seeded "restaurant" <> [] /\ find db_seeded "menuitem" <> []
  /\ seed_data (Some db_seeded)
     = (Some db_seeded, inr {| restaurants := 0; menuitem := 0 |}).
Proof.
  assert (Hr : find db_seeded "restaurant" <> []) by (vm_compute; discriminate).
  assert (Hm : find db_seeded "menuitem" <> []) by (vm_compute; discriminate).
  split; [exact Hr|]. split; [exact Hm|].
  exact (proj1 seed_idempotent db_seeded Hr Hm).
Defined.

(** C10: the counts seeding reports are 0 or 3 for restaurants and 0 or 4
    for menu items; and the menu-item phase, run on a store whose
    restaurant collection has no documents, inserts nothing and leaves its
    count as it was, whatever the menuitem collection holds. *)
Theorem seed_counts :
  (forall d, exists d' c,
      seed_data (Some d) = (Some d', inr c)
      /\ (restaurants c = 0 \/ restaurants c = 3)
      /\ (menuitem c = 0 \/ menuitem c = 4))
  /\ (forall names d c,
        find d "restaurant" = [] -> seed_menuitems names (d, c) = (d, c)).
Proof.
  split.
  - intros d. unfold seed_data.
    set (names := list_collection_names d).
    set (c0 := {| restaurants := 0; menuitem := 0 |}).
    destruct (seed_restaurants_spec names d c0)
      as (new1 & Hnew1 & _ & _ & Hc1 & _).
    destruct (seed_restaurants names (d, c0)) as [d1 c1] eqn:Hst1.
    cbn [fst snd] in Hc1.
    destruct (seed_menuitems_spec names d1 c1)
      as (new2 & Hnew2 & _ & _ & Hc2 & _).
    destruct (seed_menuitems names (d1, c1)) as [d2 c2] eqn:Hst2.
    cbn [fst snd] in Hc2.
    exists d2, c2. split; [reflexivity|]. subst c2 c1. simpl. split.
    + destruct Hnew1 as [-> | ->]; [by left | by right].
    + destruct Hnew2 as [-> | (f & s & t & _ & ->)]; [by left | by right].
  - intros names d c Hnil. unfold seed_menuitems. cbn [fst].
    rewrite Hnil. by destruct (negb _ || _).
Qed.

Lemma seed_counts_witness :
  find db0 "restaurant" = []
  /\ seed_menuitems [] (db0, {| restaurants := 0; menuitem := 0 |})
     = (db0, {| restaurants := 0; menuitem := 0 |}).
Proof.
  split; [reflexivity|].
  exact (proj2 seed_counts [] db0 {| restaurants := 0; menuitem := 0 |}
           eq_refl).
Defined.

(** ** Facts about the total *)

Lemma int_to_float_convertible n :
  Py.int_to_float n
  = if convertible n then inr (float_of_int n) else inl overflow.
Proof.
  unfold Py.int_to_float, convertible, float_of_int.
  by destruct (binary_normalize _ _ _ _ _).
Qed.

Lemma price_times_quantity_spec item :
  price_times_quantity item
  = if convertible (OrderItem.quantity item)
    then inr (line_total item) else inl overflow.
Proof.
  unfold price_times_quantity, Py.float_mul_int, line_total.
  rewrite int_to_float_convertible. by destruct (convertible _).
Qed.

(** Once the accumulator is a float the sum is a left fold of additions. *)
Lemma sum_from_float items x :
  quantities_convertible items = true ->
  Py.sum_from price_times_quantity (Py.Float x) items
  = inr (Py.Float (fold_left Py.fadd (map line_total items) x)).
Proof.
  revert x. induction items as [|i items IH]; intros x Hq; [done|].
  simpl in Hq. apply andb_true_iff in Hq as [Hi Hq].
  simpl. rewrite price_times_quantity_spec, Hi. simpl. by apply IH.
Qed.

(** One quantity that cannot be converted makes the sum raise. *)
Lemma sum_from_overflow items acc :
  quantities_convertible items = false ->
  Py.sum_from price_times_quantity acc items = inl overflow.
Proof.
  revert acc. induction items as [|i items IH]; intros acc Hq; [done|].
  simpl in Hq. simpl. rewrite price_times_quantity_spec.
  destruct (convertible (OrderItem.quantity i)); simpl in *; [|done].
  destruct acc as [n|x]; simpl.
  - rewrite int_to_float_convertible.
    destruct (convertible n); simpl; [by apply IH | done].
  - by apply IH.
Qed.

(** The value [create_order] stores under [total]. *)
Lemma computed_total items :
  (total <- Py.sum price_times_quantity items ;;
   Py.to_float_field (Py.round2 total))
  = if quantities_convertible items
    then inr (rounded_total items) else inl overflow.
Proof.
  destruct (quantities_convertible items) eqn:Hq.
  - destruct items as [|i items]; [reflexivity|].
    simpl in Hq. apply andb_true_iff in Hq as [Hi Hq].
    unfold Py.sum, rounded_total. simpl.
    rewrite price_times_quantity_spec, Hi. simpl.
    change (Py.int_to_float 0) with (@inr Py.exn _ (S754_zero false)).
    simpl. rewrite sum_from_float by done. reflexivity.
  - unfold Py.sum. by rewrite sum_from_overflow.
Qed.

(** [create_order] on a store, in full. *)
Lemma create_order_spec payload d :
  create_order payload (Some d)
  = if quantities_convertible (CreateOrder.items payload)
    then
      let order := order_of payload (rounded_total (CreateOrder.items payload)) in
      (Some (snd (create_document "order" (Of_Order order) d)),
       inr {| order_id := str_ObjectId (next_oid d);
              status := "pending";
              total := rounded_total (CreateOrder.items payload) |})
    else (Some d, inl overflow).
Proof.
  unfold create_order.
  change (fun item => Py.float_mul_int _ _) with price_times_quantity.
  rewrite computed_total.
  by destruct (quantities_convertible _).
Qed.

(** The route on a store, for a body that validates. *)
Lemma post_orders_valid body payload d :
  validate_CreateOrder body = inr payload ->
  post_orders body (Some d)
  = if quantities_convertible (CreateOrder.items payload)
    then
      (Some (snd (create_document "order"
                    (Of_Order
                       (order_of payload
                          (rounded_total (CreateOrder.items payload)))) d)),
       render {| order_id := str_ObjectId (next_oid d);
                 status := "pending";
                 total := rounded_total (CreateOrder.items payload) |})
    else (Some d, inl overflow).
Proof.
  intros Hv. unfold post_orders. rewrite Hv, create_order_spec.
  by destruct (quantities_convertible _).
Qed.

(** Validation fails only with a validation error. *)
Lemma required_error {A} field (v : option A) e :
  required field v = inl e -> exists f m, e = Py.RequestValidationError f m.
Proof. destruct v; intros [=]; subst; eauto. Qed.

Lemma validate_OrderItem_error r e :
  validate_OrderItem r = inl e -> exists f m, e = Py.RequestValidationError f m.
Proof.
  unfold validate_OrderItem.
  destruct (required "menu_item_id" _) eqn:H1; simpl;
    [intros [= <-]; eapply required_error, H1|].
  destruct (required "name" _) eqn:H2; simpl;
    [intros [= <-]; eapply required_error, H2|].
  destruct (validate_quantity _) eqn:H3; simpl.
  { intros [= <-]. unfold validate_quantity in H3.
    destruct (Raw.quantity r); [|done].
    destruct (1 <=? _); [done|]. injection H3 as <-. eauto. }
  destruct (required "price" _) eqn:H4; simpl;
    [intros [= <-]; eapply required_error, H4 | done].
Qed.

Lemma validate_items_error l e :
  validate_items l = inl e -> exists f m, e = Py.RequestValidationError f m.
Proof.
  induction l as [|r l IH]; simpl; [done|].
  destruct (validate_OrderItem r) eqn:H1; simpl;
    [intros [= <-]; eapply validate_OrderItem_error, H1|].
  destruct (validate_items l) eqn:H2; simpl; [|done].
  intros [= <-]. by apply IH.
Qed.

Lemma validate_CreateOrder_error body e :
  validate_CreateOrder body = inl e ->
  exists f m, e = Py.RequestValidationError f m.
Proof.
  unfold validate_CreateOrder.
  destruct (required "restaurant_id" _) eqn:H1; simpl;
    [intros [= <-]; eapply required_error, H1|].
  destruct (required "customer_name" _) eqn:H2; simpl;
    [intros [= <-]; eapply required_error, H2|].
  destruct (required "address" _) eqn:H3; simpl;
    [intros [= <-]; eapply required_error, H3|].
  destruct (required "phone" _) eqn:H4; simpl;
    [intros [= <-]; eapply required_error, H4|].
  destruct (required "items" _) eqn:H5; simpl;
    [intros [= <-]; eapply required_error, H5|].
  destruct (validate_items _) eqn:H6; simpl;
    [intros [= <-]; eapply validate_items_error, H6 | done].
Qed.

(** An item whose quantity is below one does not validate, and neither
    does a list that holds one. *)
Lemma validate_OrderItem_quantity r q :
  Raw.quantity r = Some q -> q < 1 -> exists e, validate_OrderItem r = inl e.
Proof.
  intros Hq Hlt. unfold validate_OrderItem.
  destruct (required "menu_item_id" _); simpl; [eauto|].
  destruct (required "name" _); simpl; [eauto|].
  rewrite Hq. simpl.
  destruct (1 <=? q) eqn:Hle; [apply Z.leb_le in Hle; lia|].
  simpl. eauto.
Qed.

Lemma validate_items_quantity l :
  Exists (fun r => exists q, Raw.quantity r = Some q /\ q < 1) l ->
  exists e, validate_items l = inl e.
Proof.
  induction 1 as [r l (q & Hq & Hlt) | r l _ (e & IH)]; simpl.
  - destruct (validate_OrderItem_quantity r q Hq Hlt) as [e ->]. simpl. eauto.
  - destruct (validate_OrderItem r); simpl; [eauto|].
    rewrite IH. simpl. eauto.
Qed.

(** ** The claims on orders *)

(** C1: the total of the order that [create_order] stores, and the total
    it returns, is the sum over the items of price times quantity rounded
    to two decimals, computed from the items alone; a key such as "total"
    in the body changes nothing.  (Where a quantity is too large for a
    float the call raises and stores no order.)  For 14.99 x 2 and
    12.50 x 1 the total is 42.48 and the status "pending". *)
Theorem order_total_recomputed :
  (forall payload d,
     let items := CreateOrder.items payload in
     if quantities_convertible items then
       exists d',
         create_order payload (Some d)
         = (Some d',
            inr {| order_id := str_ObjectId (next_oid d);
                   status := "pending";
                   total := rounded_total items |})
         /\ find d' "order"
            = (find d "order"
               ++ [mkdoc (Oid (next_oid d))
                     (Of_Order (order_of payload (rounded_total items)))])%list
     else create_order payload (Some d) = (Some d, inl overflow))
  /\ (forall body extra db,
        post_orders (with_extra body extra) db = post_orders body db)
  /\ (forall rid cn addr ph id1 n1 id2 n2 d,
        snd (create_order
               (CreateOrder.mk rid cn addr ph
                  [ OrderItem.mk id1 n1 2 (Py.ratio 1499 100);
                    OrderItem.mk id2 n2 1 (Py.ratio 1250 100) ])
               (Some d))
        = inr {| order_id := str_ObjectId (next_oid d);
                 status := "pending";
                 total := Py.ratio 4248 100 |}).
Proof.
  split; [|split].
  - intros payload d items. rewrite create_order_spec. fold items.
    destruct (quantities_convertible items); [|done].
    eexists. split; [reflexivity|]. apply find_create_document.
  - intros body extra db. reflexivity.
  - intros. rewrite create_order_spec. reflexivity.
Qed.

(** C2, as the code has it: an empty item list is accepted.  With the four
    strings present and [items] an empty list, an order with no items,
    total 0.0 and status "pending" is stored and returned. *)
Theorem empty_items_accepted rid cn addr ph extra d :
  exists d',
    post_orders
      (Raw.mkOrder (Some rid) (Some cn) (Some addr) (Some ph) (Some []) extra)
      (Some d)
    = (Some d',
       inr {| order_id := str_ObjectId (next_oid d);
              status := "pending";
              total := S754_zero false |})
    /\ find d' "order"
       = (find d "order"
          ++ [mkdoc (Oid (next_oid d))
                (Of_Order
                   (Order.mk rid cn addr ph [] (S754_zero false) "pending"))])%list.
Proof.
  unfold post_orders.
  change (validate_CreateOrder _)
    with (@inr Py.exn _ (CreateOrder.mk rid cn addr ph [])).
  cbv iota beta. rewrite create_order_spec.
  eexists. split; [reflexivity|]. apply find_create_document.
Qed.

(** C2 fails as stated: this body with an empty item list is not rejected. *)
Lemma empty_items_not_rejected :
  ~ rejected (Some db0) (post_orders (body_with []) (Some db0)).
Proof. intros (f & m & H). vm_compute in H. discriminate H. Qed.

(** C3, at the failing input: an item priced -5.0 passes validation, and
    an order with total -5.0 is stored and returned. *)
Theorem negative_price_accepted :
  Py.fltb (Py.ratio (-5) 1) (S754_zero false) = true
  /\ ~ rejected (Some db0)
         (post_orders (body_with [raw_item 1 (Py.ratio (-5) 1)]) (Some db0))
  /\ exists d',
       post_orders (body_with [raw_item 1 (Py.ratio (-5) 1)]) (Some db0)
       = (Some d',
          inr {| order_id := str_ObjectId 0%N;
                 status := "pending";
                 total := Py.ratio (-5) 1 |})
       /\ length (find d' "order") = 1%nat.
Proof.
  split; [reflexivity|]. split.
  - intros (f & m & H). vm_compute in H. discriminate H.
  - eexists. split; [vm_compute; reflexivity | reflexivity].
Qed.

(** C4: a body in which some item has a quantity below one is answered
    with a validation error, a client error, and the store is untouched. *)
Theorem quantity_below_one_rejected body its db :
  Raw.items body = Some its ->
  Exists (fun r => exists q, Raw.quantity r = Some q /\ q < 1) its ->
  rejected db (post_orders body db)
  /\ exists e, snd (post_orders body db) = inl e /\ Py.client_error e = true.
Proof.
  intros Hits Hbad.
  assert (He : exists e, validate_CreateOrder body = inl e).
  { unfold validate_CreateOrder.
    destruct (required "restaurant_id" _); simpl; [eauto|].
    destruct (required "customer_name" _); simpl; [eauto|].
    destruct (required "address" _); simpl; [eauto|].
    destruct (required "phone" _); simpl; [eauto|].
    rewrite Hits. simpl.
    destruct (validate_items_quantity its Hbad) as [e ->]. simpl. eauto. }
  destruct He as [e He].
  destruct (validate_CreateOrder_error body e He) as (f & m & ->).
  unfold post_orders, rejected. rewrite He. split.
  - by exists f, m.
  - eexists. split; reflexivity.
Qed.

Lemma quantity_below_one_rejected_witness :
  Raw.items (body_with items_with_zero) = Some items_with_zero
  /\ Exists (fun r => exists q, Raw.quantity r = Some q /\ q < 1)
       items_with_zero
  /\ rejected (Some db0) (post_orders (body_with items_with_zero) (Some db0)).
Proof.
  assert (Hbad : Exists (fun r => exists q, Raw.quantity r = Some q /\ q < 1)
                   items_with_zero).
  { apply Exists_cons_tl, Exists_cons_hd. exists 0. split; [reflexivity | lia]. }
  split; [reflexivity|]. split; [exact Hbad|].
  exact (proj1 (quantity_below_one_rejected (body_with items_with_zero)
                  items_with_zero (Some db0) eq_refl Hbad)).
Defined.

(** C9 fails as stated: this body passes validation, yet its quantity,
    2^1024, is too large for a float; the handler raises and no order is
    stored. *)
Lemma huge_quantity_not_persisted :
  (exists payload,
     validate_CreateOrder (body_with [raw_item (2 ^ 1024) (Py.ratio 1499 100)])
     = inr payload)
  /\ post_orders (body_with [raw_item (2 ^ 1024) (Py.ratio 1499 100)]) (Some db0)
     = (Some db0, inl overflow).
Proof. split; [eexists; reflexivity | vm_compute; reflexivity]. Qed.

(** ** Facts about the menu listing *)

Lemma refers_to_true x doc :
  refers_to x doc = true <-> reference doc = Some x.
Proof.
  unfold refers_to. destruct (reference doc) as [s|]; [|done].
  rewrite String.eqb_eq. split; [by intros -> | by intros [= ->]].
Qed.

Lemma matches_reference x doc :
  matches [("restaurant_id", x)] doc = refers_to x doc.
Proof.
  unfold matches, refers_to, reference. simpl.
  destruct (str_field _ _); [apply andb_true_r | done].
Qed.

Lemma list_menu_spec x d :
  list_menu x (Some d)
  = inr (map _stringify_id (List.filter (refers_to x) (find d "menuitem"))).
Proof.
  unfold list_menu, get_documents. simpl. do 2 f_equal.
  apply List.filter_ext. intros doc. apply matches_reference.
Qed.

(** ** The sample data *)

(** The sample data passes the checks of its models, so building it in
    [seed_data] raises nothing. *)
Lemma sample_restaurants_valid :
  forallb valid_Restaurant sample_restaurants = true.
Proof. reflexivity. Qed.

Lemma sample_items_valid first second third :
  forallb valid_MenuItem (sample_items first second third) = true.
Proof. reflexivity. Qed.


(** ** The number model on known values *)

(** [round(2.675, 2)] is [2.67]: the double below the literal is rounded. *)
Example round2_2675 :
  Py.round2_float (Py.ratio 2675 1000) = Py.ratio 267 100.
Proof. reflexivity. Qed.

(** [round(0.125, 2)] is [0.12] and [round(0.375, 2)] is [0.38]: ties go
    to the even digit. *)
Example round2_ties :
  Py.round2_float (Py.ratio 125 1000) = Py.ratio 12 100
  /\ Py.round2_float (Py.ratio 375 1000) = Py.ratio 38 100.
Proof. split; reflexivity. Qed.

(** [14.99 * 2 + 12.5 * 1] is [42.480000000000004] before rounding. *)
Example sum_before_rounding :
  Py.sum price_times_quantity
    [ OrderItem.mk "a" "A" 2 (Py.ratio 1499 100);
      OrderItem.mk "b" "B" 1 (Py.ratio 1250 100) ]
  = inr (Py.Float (S754_finite false 5978528505334334 (-47)))
  /\ Py.ratio 4248 100 = S754_finite false 5978528505334333 (-47).
Proof. split; reflexivity. Qed.

(** The largest int [float] accepts, and the first it refuses. *)
Example convertible_bound :
  convertible (2 ^ 1024 - 2 ^ 970 - 1) = true
  /\ convertible (2 ^ 1024 - 2 ^ 970) = false.
Proof. split; reflexivity. Qed.

(** ** Identifiers and their string form *)

Lemma hex_value_digit (k : nat) :
  (k < 16)%nat ->
  hex_value
    (nth k ["0"; "1"; "2"; "3"; "4"; "5"; "6"; "7";
            "8"; "9"; "a"; "b"; "c"; "d"; "e"; "f"]%char "0"%char)
  = Some (N.of_nat k).
Proof.
  intros Hk. do 16 (destruct k as [|k]; [reflexivity|]). lia.
Qed.

Lemma hex_value_hex_digit n :
  (n < 16)%N -> hex_value (hex_digit n) = Some n.
Proof.
  intros Hn. unfold hex_digit. rewrite hex_value_digit by lia.
  by rewrite N2Nat.id.
Qed.

Lemma parse_hex_append s1 s2 acc :
  parse_hex (String.append s1 s2) acc
  = match parse_hex s1 acc with
    | Some acc' => parse_hex s2 acc'
    | None => None
    end.
Proof.
  revert acc. induction s1 as [|c s1 IH]; intros acc; simpl; [done|].
  destruct (hex_value c); [apply IH | done].
Qed.

Lemma length_string_append s1 s2 :
  String.length (String.append s1 s2)
  = (String.length s1 + String.length s2)%nat.
Proof. induction s1 as [|c s1 IH]; simpl; [done | by rewrite IH]. Qed.

Lemma length_hex_of k n : String.length (hex_of k n) = k.
Proof.
  revert n. induction k as [|k IH]; intros n; simpl; [done|].
  rewrite length_string_append, IH. simpl. lia.
Qed.

Lemma parse_hex_hex_of k n acc :
  parse_hex (hex_of k n) acc
  = Some (acc * 16 ^ N.of_nat k + n mod 16 ^ N.of_nat k)%N.
Proof.
  revert n acc. induction k as [|k IH]; intros n acc.
  - simpl. f_equal. rewrite N.mod_1_r. lia.
  - cbn [hex_of]. rewrite parse_hex_append, IH. cbn [parse_hex].
    rewrite hex_value_hex_digit by (apply N.mod_lt; lia).
    f_equal. rewrite Nat2N.inj_succ, N.pow_succ_r'.
    rewrite (N.Div0.mod_mul_r n 16 (16 ^ N.of_nat k)). lia.
Qed.

Lemma hex_value_not_space c h : hex_value c = Some h -> is_space c = false.
Proof.
  destruct c as [[|] [|] [|] [|] [|] [|] [|] [|]]; vm_compute; congruence.
Qed.

(** On an even number of hexadecimal digits [bytes.fromhex] reads what
    reading digit by digit gives. *)
Lemma fromhex_parse_hex (k : nat) s acc v :
  String.length s = (2 * k)%nat ->
  parse_hex s acc = Some v -> fromhex s acc = Some v.
Proof.
  revert s acc. induction k as [|k IH]; intros s acc Hlen.
  - destruct s; [done | discriminate].
  - destruct s as [|c1 [|c2 s]]; try (simpl in Hlen; lia).
    cbn [parse_hex fromhex].
    destruct (hex_value c1) as [h|] eqn:H1; [|done].
    rewrite (hex_value_not_space c1 h H1).
    destruct (hex_value c2) as [l|]; [|done].
    replace (16 * (16 * acc + h) + l)%N with (256 * acc + 16 * h + l)%N by lia.
    apply IH. simpl in Hlen. lia.
Qed.

Lemma hex_digit_not_continuation (k : nat) :
  Py.is_continuation
    (nth k ["0"; "1"; "2"; "3"; "4"; "5"; "6"; "7";
            "8"; "9"; "a"; "b"; "c"; "d"; "e"; "f"]%char "0"%char)
  = false.
Proof. do 16 (destruct k as [|k]; [reflexivity|]). by destruct k. Qed.

Lemma len_string_append s1 s2 :
  Py.len (String.append s1 s2) = (Py.len s1 + Py.len s2)%nat.
Proof.
  induction s1 as [|c s1 IH]; simpl; [done|].
  destruct (Py.is_continuation c); simpl; by rewrite IH.
Qed.

Lemma len_hex_of k n : Py.len (hex_of k n) = k.
Proof.
  revert n. induction k as [|k IH]; intros n; simpl; [done|].
  rewrite len_string_append, IH. simpl. unfold hex_digit.
  rewrite hex_digit_not_continuation. lia.
Qed.

(** Reading back the string form of an identifier gives the identifier,
    as far as its 12 bytes go. *)
Lemma ObjectId_of_str_str o :
  ObjectId_of_str (str_ObjectId o) = inr (o mod 2 ^ 96)%N.
Proof.
  unfold ObjectId_of_str, str_ObjectId.
  rewrite len_hex_of. cbn [Nat.eqb].
  rewrite (fromhex_parse_hex 12 _ 0%N (o mod 2 ^ 96)%N).
  - reflexivity.
  - apply length_hex_of.
  - rewrite parse_hex_hex_of. reflexivity.
Qed.

Lemma str_ObjectId_inj a b :
  str_ObjectId a = str_ObjectId b -> (a mod 2 ^ 96 = b mod 2 ^ 96)%N.
Proof.
  intros H. assert (H' := ObjectId_of_str_str a).
  rewrite H, ObjectId_of_str_str in H'. by injection H' as ->.
Qed.

Lemma str_ObjectId_apart n k :
  (0 < k < 2 ^ 96)%N -> str_ObjectId n <> str_ObjectId (n + k)%N.
Proof.
  intros Hk H. apply str_ObjectId_inj in H.
  rewrite <- (N.Div0.add_mod_idemp_l n k) in H.
  assert (Hr := N.mod_upper_bound n (2 ^ 96)%N ltac:(done)).
  set (r := (n mod 2 ^ 96)%N) in *.
  destruct (N.ltb_spec (r + k)%N (2 ^ 96)%N) as [Hlt|Hge].
  - rewrite (N.mod_small (r + k)%N) in H by done. lia.
  - assert (Hm : ((r + k) mod 2 ^ 96 = r + k - 2 ^ 96)%N).
    { symmetry. apply (N.mod_unique _ _ 1%N); lia. }
    rewrite Hm in H. lia.
Qed.

(** ** More on seeding *)

Lemma loop_next_oid {A} name (wrap : A -> model) bump l st :
  next_oid (fst (fold_left (loop_step name wrap bump) l st))
  = (next_oid (fst st) + N.of_nat (length l))%N.
Proof.
  revert st. induction l as [|a l IH]; intros st.
  - simpl. lia.
  - cbn [fold_left length]. rewrite IH. unfold loop_step at 1. cbn [fst snd].
    unfold create_document. cbn [snd next_oid]. lia.
Qed.

Lemma count_documents_nil d name :
  find d name = [] -> (count_documents d name =? 0) = true.
Proof. intros H. unfold count_documents. by rewrite H. Qed.

Lemma count_documents_cons d name :
  find d name <> [] -> (count_documents d name =? 0) = false.
Proof.
  intros H. apply Z.eqb_neq. unfold count_documents.
  destruct (find d name); [done | simpl; lia].
Qed.

Lemma listed_nonempty d name :
  find d name <> [] -> Py.contains name (list_collection_names d) = true.
Proof.
  intros H. apply contains_collection. unfold find in H.
  destruct (collections d !! name); [eauto | done].
Qed.

(** The first phase, by cases on the restaurant collection. *)
Lemma seed_restaurants_nil names d c :
  find d "restaurant" = [] ->
  seed_restaurants names (d, c)
  = fold_left (loop_step "restaurant" Of_Restaurant bump_restaurants)
      sample_restaurants (d, c).
Proof.
  intros H. unfold seed_restaurants. cbn [fst].
  rewrite (count_documents_nil _ _ H), orb_true_r. reflexivity.
Qed.

Lemma seed_restaurants_cons d c :
  find d "restaurant" <> [] ->
  seed_restaurants (list_collection_names d) (d, c) = (d, c).
Proof.
  intros H. unfold seed_restaurants. cbn [fst].
  by rewrite (nonempty_collection _ _ H).
Qed.

(** The second phase, by cases on the menuitem collection; the names are
    those listed before the first phase ran. *)
Lemma seed_menuitems_nil names d1 c1 r0 rest :
  find d1 "menuitem" = [] ->
  find d1 "restaurant" = r0 :: rest ->
  seed_menuitems names (d1, c1)
  = fold_left (loop_step "menuitem" Of_MenuItem bump_menuitem)
      (sample_items (_id r0) (_id (nth 1 (r0 :: rest) r0))
         (_id (nth 2 (r0 :: rest) r0)))
      (d1, c1).
Proof.
  intros Hm Hr. unfold seed_menuitems. cbn [fst].
  rewrite (count_documents_nil _ _ Hm), orb_true_r, Hr.
  destruct rest as [|r1 [|r2 rest]]; try reflexivity.
  assert (H1 : (1 <? Z.of_nat (length (r0 :: r1 :: r2 :: rest))) = true)
    by (apply Z.ltb_lt; simpl length; lia).
  assert (H2 : (2 <? Z.of_nat (length (r0 :: r1 :: r2 :: rest))) = true)
    by (apply Z.ltb_lt; simpl length; lia).
  cbv zeta. by rewrite H1, H2.
Qed.

Lemma seed_menuitems_cons names d1 c1 :
  Py.contains "menuitem" names = true ->
  find d1 "menuitem" <> [] ->
  seed_menuitems names (d1, c1) = (d1, c1).
Proof.
  intros Hn Hm. unfold seed_menuitems. cbn [fst].
  by rewrite Hn, (count_documents_cons _ _ Hm).
Qed.

(** Neither phase touches a collection other than its own. *)
Lemma seed_restaurants_frame names st name :
  name <> "restaurant" ->
  find (fst (seed_restaurants names st)) name = find (fst st) name.
Proof.
  intros Hne. unfold seed_restaurants. destruct (negb _ || _); [|done].
  change (fun st r => _)
    with (loop_step "restaurant" Of_Restaurant bump_restaurants).
  by apply loop_find_ne.
Qed.

Lemma seed_menuitems_frame names st name :
  name <> "menuitem" ->
  find (fst (seed_menuitems names st)) name = find (fst st) name.
Proof.
  intros Hne. unfold seed_menuitems. destruct (negb _ || _); [|done].
  destruct (find (fst st) "restaurant") as [|r0 rest]; [done|].
  change (fun st i => _)
    with (loop_step "menuitem" Of_MenuItem bump_menuitem).
  by apply loop_find_ne.
Qed.

(** The state after the restaurant loop has run on a store without
    restaurants. *)
Lemma restaurants_loop_spec d c d1 c1 :
  find d "restaurant" = [] ->
  fold_left (loop_step "restaurant" Of_Restaurant bump_restaurants)
    sample_restaurants (d, c) = (d1, c1) ->
  find d1 "restaurant"
  = new_documents (next_oid d) (map Of_Restaurant sample_restaurants)
  /\ (forall name, name <> "restaurant" -> find d1 name = find d name)
  /\ next_oid d1 = (next_oid d + 3)%N
  /\ c1 = {| restaurants := restaurants c + 3; menuitem := menuitem c |}.
Proof.
  intros Hnil Hst.
  assert (H1 := loop_find "restaurant" Of_Restaurant bump_restaurants
                  sample_restaurants (d, c)).
  assert (H3 := loop_next_oid "restaurant" Of_Restaurant bump_restaurants
                  sample_restaurants (d, c)).
  assert (H4 := loop_created "restaurant" Of_Restaurant bump_restaurants
                  sample_restaurants (d, c)).
  rewrite Hst in H1, H3, H4. cbn [fst snd] in H1, H3, H4.
  rewrite Hnil in H1. split; [exact H1|]. split.
  - intros name Hne.
    assert (H2 := loop_find_ne "restaurant" Of_Restaurant bump_restaurants
                    sample_restaurants (d, c) name ltac:(congruence)).
    by rewrite Hst in H2.
  - split; [exact H3|]. rewrite H4. simpl. unfold bump_restaurants; simpl.
    f_equal. lia.
Qed.

(** The state after the menu loop has run. *)
Lemma menu_loop_spec a b t d1 c1 d2 c2 :
  fold_left (loop_step "menuitem" Of_MenuItem bump_menuitem)
    (sample_items a b t) (d1, c1) = (d2, c2) ->
  find d2 "menuitem"
  = (find d1 "menuitem"
     ++ new_documents (next_oid d1) (map Of_MenuItem (sample_items a b t)))%list
  /\ (forall name, name <> "menuitem" -> find d2 name = find d1 name)
  /\ c2 = {| restaurants := restaurants c1; menuitem := menuitem c1 + 4 |}.
Proof.
  intros Hst.
  assert (H1 := loop_find "menuitem" Of_MenuItem bump_menuitem
                  (sample_items a b t) (d1, c1)).
  assert (H4 := loop_created "menuitem" Of_MenuItem bump_menuitem
                  (sample_items a b t) (d1, c1)).
  rewrite Hst in H1, H4. cbn [fst snd] in H1, H4.
  split; [exact H1|]. split.
  - intros name Hne.
    assert (H2 := loop_find_ne "menuitem" Of_MenuItem bump_menuitem
                    (sample_items a b t) (d1, c1) name ltac:(congruence)).
    by rewrite Hst in H2.
  - rewrite H4. simpl. unfold bump_menuitem; simpl. f_equal. lia.
Qed.

(** X1: what a call to seed reports is decided by which of the two
    collections is empty when it starts: three restaurants exactly when
    the restaurant collection holds no document, four menu items exactly
    when the menuitem collection holds none.  So a store with restaurants
    but no menu items gets its menu items on the next call. *)
Theorem seed_counts_by_emptiness d :
  exists d',
    seed_data (Some d)
    = (Some d',
       inr {| restaurants :=
                match find d "restaurant" with [] => 3 | _ => 0 end;
              menuitem :=
                match find d "menuitem" with [] => 4 | _ => 0 end |}).
Proof.
  unfold seed_data.
  set (names := list_collection_names d).
  set (c0 := {| restaurants := 0; menuitem := 0 |}).
  assert (Hr1 : exists d1 c1,
             seed_restaurants names (d, c0) = (d1, c1)
             /\ find d1 "restaurant" <> []
             /\ find d1 "menuitem" = find d "menuitem"
             /\ c1 = {| restaurants :=
                          match find d "restaurant" with [] => 3 | _ => 0 end;
                        menuitem := 0 |}).
  { destruct (find d "restaurant") as [|r rs] eqn:Hr.
    - rewrite (seed_restaurants_nil _ _ _ Hr).
      destruct (fold_left _ _ _) as [d1 c1] eqn:Hst.
      destruct (restaurants_loop_spec d c0 d1 c1 Hr Hst) as (H1 & H2 & _ & H4).
      exists d1, c1. split; [done|]. split; [by rewrite H1|].
      split; [by apply H2 | exact H4].
    - exists d, c0. split; [|by rewrite Hr].
      apply seed_restaurants_cons. by rewrite Hr. }
  destruct Hr1 as (d1 & c1 & -> & Hr & Hm & ->).
  destruct (find d "menuitem") as [|m ms] eqn:Hmd.
  - destruct (find d1 "restaurant") as [|r0 rest] eqn:Hrs; [done|].
    rewrite (seed_menuitems_nil names d1 _ r0 rest Hm Hrs).
    destruct (fold_left _ _ _) as [d2 c2] eqn:Hst.
    destruct (menu_loop_spec _ _ _ _ _ _ _ Hst) as (_ & _ & ->).
    by exists d2.
  - rewrite seed_menuitems_cons.
    + by exists d1.
    + apply listed_nonempty. by rewrite Hmd.
    + by rewrite Hm.
Qed.

(** X2: seeding only adds.  The documents that the restaurant and the
    menuitem collections held are still there afterwards, in their order
    and ahead of anything new, and every other collection (the orders
    among them) is as it was. *)
Theorem seed_only_appends d :
  exists d' c new_restaurants new_items,
    seed_data (Some d) = (Some d', inr c)
    /\ find d' "restaurant" = (find d "restaurant" ++ new_restaurants)%list
    /\ find d' "menuitem" = (find d "menuitem" ++ new_items)%list
    /\ restaurants c = Z.of_nat (length new_restaurants)
    /\ menuitem c = Z.of_nat (length new_items)
    /\ (forall name,
          name <> "restaurant" -> name <> "menuitem" ->
          find d' name = find d name).
Proof.
  unfold seed_data.
  set (names := list_collection_names d).
  set (c0 := {| restaurants := 0; menuitem := 0 |}).
  destruct (seed_restaurants_spec names d c0)
    as (new1 & _ & Hr1 & Hm1 & Hc1 & _).
  assert (Hf1 := seed_restaurants_frame names (d, c0)).
  destruct (seed_restaurants names (d, c0)) as [d1 c1] eqn:Hst1.
  cbn [fst snd] in Hr1, Hm1, Hc1, Hf1.
  destruct (seed_menuitems_spec names d1 c1)
    as (new2 & _ & Hm2 & Hr2 & Hc2 & _).
  assert (Hf2 := seed_menuitems_frame names (d1, c1)).
  destruct (seed_menuitems names (d1, c1)) as [d2 c2] eqn:Hst2.
  cbn [fst snd] in Hm2, Hr2, Hc2, Hf2.
  exists d2, c2, new1, new2. split; [reflexivity|].
  split; [by rewrite Hr2|]. split; [by rewrite Hm2, Hm1|].
  split; [subst c2 c1; simpl; lia|]. split; [subst c2 c1; simpl; lia|].
  intros name Hn1 Hn2. by rewrite Hf2, Hf1.
Qed.

(** ** Seeding, then listing *)

Lemma filter_matches_all (l : list document) :
  List.filter (matches []) l = l.
Proof. induction l as [|doc l IH]; simpl; [done | by rewrite IH]. Qed.

Lemma list_restaurants_spec d :
  list_restaurants (Some d) = inr (map _stringify_id (find d "restaurant")).
Proof.
  unfold list_restaurants, get_documents. simpl.
  by rewrite filter_matches_all.
Qed.

Lemma eqb_str_ObjectId_apart n k :
  (0 < k < 2 ^ 96)%N ->
  String.eqb (str_ObjectId (n + k)%N) (str_ObjectId n) = false.
Proof.
  intros Hk. apply String.eqb_neq. intros H.
  by apply (str_ObjectId_apart n k Hk).
Qed.

(** The store a call to seed leaves when it starts without restaurants
    and without menu items. *)
Lemma seed_data_fresh d :
  find d "restaurant" = [] -> find d "menuitem" = [] ->
  exists d' c,
    seed_data (Some d) = (Some d', inr c)
    /\ find d' "restaurant"
       = new_documents (next_oid d) (map Of_Restaurant sample_restaurants)
    /\ find d' "menuitem"
       = new_documents (next_oid d + 3)%N
           (map Of_MenuItem
              (sample_items (Oid (next_oid d)) (Oid (next_oid d + 1)%N)
                 (Oid (next_oid d + 2)%N))).
Proof.
  intros Hr Hm. unfold seed_data.
  set (names := list_collection_names d).
  set (c0 := {| restaurants := 0; menuitem := 0 |}).
  rewrite (seed_restaurants_nil _ _ _ Hr).
  destruct (fold_left _ _ _) as [d1 c1] eqn:Hst1.
  destruct (restaurants_loop_spec d c0 d1 c1 Hr Hst1) as (H1 & H2 & H3 & _).
  assert (Hm1 : find d1 "menuitem" = []) by (by rewrite H2).
  cbn [sample_restaurants map new_documents] in H1.
  rewrite (seed_menuitems_nil names d1 c1 _ _ Hm1 H1). cbn [nth _id].
  remember (fold_left (loop_step "menuitem" Of_MenuItem bump_menuitem) _
              (d1, c1)) as st2 eqn:Hst2.
  destruct st2 as [d2 c2]. symmetry in Hst2.
  destruct (menu_loop_spec _ _ _ _ _ _ _ Hst2) as (M1 & M2 & _).
  exists d2, c2. split; [reflexivity|]. split.
  - rewrite M2 by discriminate. exact H1.
  - rewrite M1, Hm1, H3. cbn [app nth _id].
    replace (next_oid d + 1 + 1)%N with (next_oid d + 2)%N by lia.
    reflexivity.
Qed.

(** X3: seeding a store that has neither restaurants nor menu items, then
    listing.  The restaurant listing has the three sample restaurants,
    each under the string of its new identifier; asking for the menu
    under the first of these strings gives Spaghetti Carbonara and
    Margherita Pizza, under the second Salmon Nigiri (6), under the third
    Chicken Tikka Masala, and nothing else. *)
Theorem seed_then_list d :
  find d "restaurant" = [] -> find d "menuitem" = [] ->
  exists d' r1 r2 r3 m1 m2 m3,
    fst (seed_data (Some d)) = Some d'
    /\ list_restaurants (Some d') = inr [r1; r2; r3]
    /\ map (fun r => str_field (fields r) "name") [r1; r2; r3]
       = [Some "Pasta Palace"; Some "Sushi Express"; Some "Spice Route"]
    /\ list_menu (str_id (_id r1)) (Some d') = inr m1
    /\ list_menu (str_id (_id r2)) (Some d') = inr m2
    /\ list_menu (str_id (_id r3)) (Some d') = inr m3
    /\ map (fun m => str_field (fields m) "name") m1
       = [Some "Spaghetti Carbonara"; Some "Margherita Pizza"]
    /\ map (fun m => str_field (fields m) "name") m2
       = [Some "Salmon Nigiri (6)"]
    /\ map (fun m => str_field (fields m) "name") m3
       = [Some "Chicken Tikka Masala"].
Proof.
  intros Hr Hm.
  destruct (seed_data_fresh d Hr Hm) as (d' & c & Hseed & Hrs & Hms).
  set (n := next_oid d) in *.
  assert (E1 := eqb_str_ObjectId_apart n 1 ltac:(lia)).
  assert (E2 := eqb_str_ObjectId_apart n 2 ltac:(lia)).
  assert (E3 := eqb_str_ObjectId_apart (n + 1) 1 ltac:(lia)).
  replace (n + 1 + 1)%N with (n + 2)%N in E3 by lia.
  assert (F1 : String.eqb (str_ObjectId n) (str_ObjectId (n + 1)%N) = false)
    by (rewrite String.eqb_sym; exact E1).
  assert (F2 : String.eqb (str_ObjectId n) (str_ObjectId (n + 2)%N) = false)
    by (rewrite String.eqb_sym; exact E2).
  assert (F3 : String.eqb (str_ObjectId (n + 1)%N) (str_ObjectId (n + 2)%N)
               = false) by (rewrite String.eqb_sym; exact E3).
  do 7 eexists. rewrite Hseed. split; [reflexivity|].
  rewrite list_restaurants_spec, Hrs. split; [reflexivity|].
  split; [reflexivity|].
  rewrite !list_menu_spec, Hms.
  cbn [sample_restaurants map new_documents _stringify_id _id str_id
       sample_items List.filter].
  replace (n + 1 + 1)%N with (n + 2)%N by lia.
  unfold refers_to, reference. cbn [fields str_field MenuItem.restaurant_id
    String.eqb Ascii.eqb Bool.eqb andb str_id].
  rewrite !String.eqb_refl, ?E1, ?E2, ?E3, ?F1, ?F2, ?F3.
  repeat split; reflexivity.
Qed.

(** ** What the validator of an order body accepts *)

Lemma validate_OrderItem_well_formed r :
  well_formed_item r = true -> validate_OrderItem r = inr (item_of r).
Proof.
  destruct r as [[id|] [nm|] [q|] [p|]];
    unfold well_formed_item, validate_OrderItem, item_of; simpl;
    try discriminate; try reflexivity.
  - destruct (1 <=? q); [reflexivity | discriminate].
  - destruct (1 <=? q); discriminate.
Qed.

Lemma validate_OrderItem_ill_formed r :
  well_formed_item r = false -> exists e, validate_OrderItem r = inl e.
Proof.
  destruct r as [[id|] [nm|] [q|] [p|]];
    unfold well_formed_item, validate_OrderItem; simpl;
    try discriminate; eauto.
  - destruct (1 <=? q); simpl; [discriminate | eauto].
  - destruct (1 <=? q); simpl; eauto.
Qed.

Lemma validate_items_well_formed l :
  forallb well_formed_item l = true -> validate_items l = inr (map item_of l).
Proof.
  induction l as [|r l IH]; simpl; [done|].
  intros [Hr Hl]%andb_true_iff.
  by rewrite (validate_OrderItem_well_formed r Hr), (IH Hl).
Qed.

Lemma validate_items_ill_formed l :
  forallb well_formed_item l = false -> exists e, validate_items l = inl e.
Proof.
  induction l as [|r l IH]; simpl; [done|].
  destruct (well_formed_item r) eqn:Hr; simpl.
  - intros Hl. rewrite (validate_OrderItem_well_formed r Hr). simpl.
    destruct (IH Hl) as [e ->]. simpl. eauto.
  - intros _. destruct (validate_OrderItem_ill_formed r Hr) as [e ->].
    simpl. eauto.
Qed.

Lemma validate_CreateOrder_well_formed body :
  well_formed body = true -> validate_CreateOrder body = inr (payload_of body).
Proof.
  destruct body as [[rid|] [cn|] [ad|] [ph|] [its|] extra]; try done;
    unfold well_formed; simpl; try (by rewrite ?andb_false_r).
  intros H. unfold validate_CreateOrder, payload_of. simpl.
  by rewrite (validate_items_well_formed its H).
Qed.

Lemma validate_CreateOrder_ill_formed body :
  well_formed body = false ->
  exists field msg,
    validate_CreateOrder body = inl (Py.RequestValidationError field msg).
Proof.
  intros H.
  assert (He : exists e, validate_CreateOrder body = inl e).
  { destruct body as [[rid|] [cn|] [ad|] [ph|] [its|] extra];
      unfold validate_CreateOrder; simpl; eauto.
    unfold well_formed in H. simpl in H.
    destruct (validate_items_ill_formed its H) as [e ->]. simpl. eauto. }
  destruct He as [e He].
  destruct (validate_CreateOrder_error body e He) as (f & m & ->). eauto.
Qed.

Lemma item_of_quantity r :
  well_formed_item r = true -> 1 <= OrderItem.quantity (item_of r).
Proof.
  destruct r as [id nm [q|] p]; unfold well_formed_item; simpl; [|lia].
  destruct (1 <=? q) eqn:Hq; [intros _; by apply Z.leb_le|].
  by rewrite andb_false_r.
Qed.

Lemma seed_then_list_witness :
  find db0 "restaurant" = [] /\ find db0 "menuitem" = []
  /\ exists d' r1 m1,
       fst (seed_data (Some db0)) = Some d'
       /\ (exists r2 r3, list_restaurants (Some d') = inr [r1; r2; r3])
       /\ list_menu (str_id (_id r1)) (Some d') = inr m1
       /\ map (fun m => str_field (fields m) "name") m1
          = [Some "Spaghetti Carbonara"; Some "Margherita Pizza"].
Proof.
  split; [reflexivity|]. split; [reflexivity|].
  destruct (seed_then_list db0 eq_refl eq_refl)
    as (d' & r1 & r2 & r3 & m1 & m2 & m3 & H1 & H2 & _ & H4 & _ & _ & H7 & _).
  exists d', r1, m1. split; [exact H1|]. split; [by exists r2, r3|].
  split; [exact H4 | exact H7].
Defined.

(** ** What the order route leaves in the store *)

Lemma payload_of_quantities body :
  well_formed body = true ->
  Forall (fun i => 1 <= OrderItem.quantity i)
    (CreateOrder.items (payload_of body)).
Proof.
  unfold well_formed, payload_of. simpl.
  destruct (Raw.items body) as [its|]; [|by rewrite andb_false_r].
  intros H. apply andb_true_iff in H as [_ H]. simpl.
  induction its as [|r its IH]; simpl; [constructor|].
  simpl in H. apply andb_true_iff in H as [Hr Hl].
  constructor; [by apply item_of_quantity | by apply IH].
Qed.

(** X5: whenever the order route answers with success, exactly one
    document was added, at the end of the order collection, under the
    identifier whose string is the [order_id] of the answer; the order in
    it has the strings and the items of the body, every quantity at least
    1, status "pending" and the total the answer carries; no other
    collection changed. *)
Theorem persisted_order_invariant body d d' r :
  post_orders body (Some d) = (Some d', inr r) ->
  exists order,
    find d' "order"
    = (find d "order" ++ [mkdoc (Oid (next_oid d)) (Of_Order order)])%list
    /\ order_id r = str_ObjectId (next_oid d)
    /\ status r = "pending"
    /\ Order.status order = "pending"
    /\ Order.total order = total r
    /\ Order.items order = CreateOrder.items (payload_of body)
    /\ Some (Order.restaurant_id order) = Raw.restaurant_id body
    /\ Forall (fun i => 1 <= OrderItem.quantity i) (Order.items order)
    /\ (forall name, name <> "order" -> find d' name = find d name).
Proof.
  intros Hout. destruct (well_formed body) eqn:Hwf.
  - assert (Hv := validate_CreateOrder_well_formed body Hwf).
    rewrite (post_orders_valid _ _ _ Hv) in Hout.
    destruct (quantities_convertible _); [|discriminate].
    unfold render in Hout. cbn [total] in Hout.
    destruct (Py.is_finite _); [|discriminate].
    injection Hout as <- <-.
    eexists. split; [apply find_create_document|].
    do 5 (split; [reflexivity|]). split.
    + unfold well_formed in Hwf. simpl.
      by destruct (Raw.restaurant_id body).
    + split; [by apply payload_of_quantities|].
      intros name Hne. apply find_create_document_ne. congruence.
  - destruct (validate_CreateOrder_ill_formed body Hwf) as (f & m & Hv).
    unfold post_orders in Hout. rewrite Hv in Hout. discriminate.
Qed.

Lemma persisted_order_invariant_witness :
  exists d' r order,
    post_orders body_unknown_ids (Some db0) = (Some d', inr r)
    /\ find d' "order" = [mkdoc (Oid 0%N) (Of_Order order)]
    /\ Order.total order = total r.
Proof.
  destruct (persisted_order_invariant body_unknown_ids db0
              (snd (create_document "order"
                      (Of_Order (order_of payload_unknown_ids
                                   (rounded_total
                                      (CreateOrder.items payload_unknown_ids))))
                      db0))
              {| order_id := str_ObjectId 0%N; status := "pending";
                 total := rounded_total (CreateOrder.items payload_unknown_ids) |}
              eq_refl)
    as (order & H1 & _ & _ & _ & H5 & _).
  do 3 eexists. split; [reflexivity|]. split; [exact H1 | exact H5].
Defined.



(** ** The bounds of the models *)

Lemma check_ge_inr field lo x y :
  check_ge field lo x = inr y -> y = x /\ Py.fleb lo x = true.
Proof. unfold check_ge. destruct (Py.fleb lo x); [by intros [= <-] | done]. Qed.

Lemma check_le_inr field hi x y :
  check_le field hi x = inr y -> y = x /\ Py.fleb x hi = true.
Proof. unfold check_le. destruct (Py.fleb x hi); [by intros [= <-] | done]. Qed.

Lemma check_range_inr field lo hi n m :
  check_range field lo hi n = inr m -> m = n /\ lo <= n <= hi.
Proof.
  unfold check_range.
  destruct (lo <=? n) eqn:H1; [|done]. destruct (n <=? hi) eqn:H2; [|done].
  intros [= <-]. apply Z.leb_le in H1, H2. lia.
Qed.

(** X8: a restaurant or a menu item that passes its model is within the
    bounds the model declares, also where a default was taken: the rating
    is between 0 and 5, the delivery time between 5 and 120 minutes, the
    price of a menu item at least 0 (which leaves out NaN). *)
Theorem validated_catalog_within_bounds :
  (forall r x, validate_Restaurant r = inr x -> valid_Restaurant x = true)
  /\ (forall m x, validate_MenuItem m = inr x -> valid_MenuItem x = true).
Proof.
  split.
  - intros r x. unfold validate_Restaurant.
    destruct (required "name" _) as [|nm]; [done|]. simpl.
    destruct (required "cuisine" _) as [|cu]; [done|]. simpl.
    destruct (Input.r_rating r) as [g|].
    + destruct (check_ge _ _ g) as [|g'] eqn:Hge; [done|]. simpl.
      apply check_ge_inr in Hge as [-> Hge].
      destruct (check_le _ _ g) as [|g''] eqn:Hle; [done|]. simpl.
      apply check_le_inr in Hle as [-> Hle].
      destruct (Input.r_delivery_time_min r) as [t|].
      * destruct (check_range _ _ _ t) as [|t'] eqn:Ht; [done|]. simpl.
        apply check_range_inr in Ht as [-> Ht]. intros [= <-].
        unfold valid_Restaurant. simpl. rewrite Hge, Hle. simpl.
        apply andb_true_iff. split; apply Z.leb_le; lia.
      * simpl. intros [= <-]. unfold valid_Restaurant. simpl.
        by rewrite Hge, Hle.
    + simpl. destruct (Input.r_delivery_time_min r) as [t|].
      * destruct (check_range _ _ _ t) as [|t'] eqn:Ht; [done|]. simpl.
        apply check_range_inr in Ht as [-> Ht]. intros [= <-].
        unfold valid_Restaurant. simpl.
        change (Py.fleb (S754_zero false) (Py.ratio 45 10)) with true.
        change (Py.fleb (Py.ratio 45 10) (Py.ratio 5 1)) with true. simpl.
        apply andb_true_iff. split; apply Z.leb_le; lia.
      * simpl. by intros [= <-].
  - intros m x. unfold validate_MenuItem.
    destruct (required "restaurant_id" _) as [|rid]; [done|]. simpl.
    destruct (required "name" _) as [|nm]; [done|]. simpl.
    destruct (required "price" _) as [|p]; [done|]. simpl.
    destruct (check_ge _ _ p) as [|p'] eqn:Hge; [done|]. simpl.
    apply check_ge_inr in Hge as [-> Hge]. by intros [= <-].
Qed.

Lemma validated_catalog_within_bounds_witness :
  validate_Restaurant
    (Input.mkRestaurant (Some "Noodle Bar") None None (Some "Thai") None None)
  = inr (Restaurant.mk "Noodle Bar" None None "Thai" (Py.ratio 45 10) 25)
  /\ valid_Restaurant
       (Restaurant.mk "Noodle Bar" None None "Thai" (Py.ratio 45 10) 25)
     = true.
Proof.
  split; [reflexivity|].
  exact (proj1 validated_catalog_within_bounds
           (Input.mkRestaurant (Some "Noodle Bar") None None (Some "Thai")
              None None) _ eq_refl).
Defined.

(** X9: a user or a product that passes its model is within the bounds
    the model declares: an age, where given, is between 0 and 120, and the
    price of a product is at least 0. *)
Theorem validated_examples_within_bounds :
  (forall u x, validate_User u = inr x -> valid_User x = true)
  /\ (forall p x, validate_Product p = inr x -> valid_Product x = true).
Proof.
  split.
  - intros u x. unfold validate_User.
    destruct (required "name" _) as [|nm]; [done|]. simpl.
    destruct (required "email" _) as [|em]; [done|]. simpl.
    destruct (required "address" _) as [|ad]; [done|]. simpl.
    destruct (Input.u_age u) as [a|]; simpl; [|by intros [= <-]].
    destruct (check_range _ _ _ a) as [|a'] eqn:Ha; [done|]. simpl.
    apply check_range_inr in Ha as [-> Ha]. intros [= <-].
    unfold valid_User. simpl.
    apply andb_true_iff. split; apply Z.leb_le; lia.
  - intros p x. unfold validate_Product.
    destruct (required "title" _) as [|ti]; [done|]. simpl.
    destruct (required "price" _) as [|pr]; [done|]. simpl.
    destruct (check_ge _ _ pr) as [|pr'] eqn:Hge; [done|]. simpl.
    apply check_ge_inr in Hge as [-> Hge].
    destruct (required "category" _) as [|ca]; [done|]. simpl.
    by intros [= <-].
Qed.

Lemma validated_examples_within_bounds_witness :
  validate_User
    (Input.mkUser (Some "Ada") (Some "ada@example.org") (Some "1 Main St")
       (Some 36) None)
  = inr (User.mk "Ada" "ada@example.org" "1 Main St" (Some 36) true)
  /\ valid_User (User.mk "Ada" "ada@example.org" "1 Main St" (Some 36) true)
     = true.
Proof.
  split; [reflexivity|].
  exact (proj1 validated_examples_within_bounds
           (Input.mkUser (Some "Ada") (Some "ada@example.org")
              (Some "1 Main St") (Some 36) None) _ eq_refl).
Defined.

(** X10: the records [seed_data] builds pass their models as they are
    written, whatever identifiers the menu items are linked to, so
    building them raises nothing and stores them unchanged. *)
Theorem sample_data_passes_models :
  Forall (fun r => validate_Restaurant (restaurant_kwargs r) = inr r)
    sample_restaurants
  /\ (forall first second third,
        Forall (fun m => validate_MenuItem (menu_item_kwargs m) = inr m)
          (sample_items first second third)).
Proof.
  split.
  - repeat constructor.
  - intros. repeat constructor.
Qed.

(** ** Identifiers in listings and references *)

Lemma str_ObjectId_parses o :
  ObjectId_of_str (str_id (Oid o)) = inr (o mod 2 ^ 96)%N
  /\ String.length (str_id (Oid o)) = 24%nat.
Proof. split; [apply ObjectId_of_str_str | apply length_hex_of]. Qed.

Lemma new_documents_Oid oid ms :
  Forall (fun doc => exists o, _id doc = Oid o) (new_documents oid ms).
Proof.
  revert oid. induction ms as [|m ms IH]; intros oid; simpl; constructor;
    [by eexists | apply IH].
Qed.

Lemma nth_Forall {A} (P : A -> Prop) (l : list A) k x :
  P x -> Forall P l -> P (nth k l x).
Proof.
  intros Hx Hl. revert k. induction Hl as [|y l Hy Hl IH]; intros [|k];
    simpl; auto.
Qed.

(** X11: where the restaurants of the store carry store-assigned
    identifiers, every reference that seeding writes into a menu item is
    the 24-character string of such an identifier and reads back as an
    identifier: the check at the head of [list_menu] succeeds on it. *)
Theorem seeded_references_are_identifiers d :
  Forall (fun doc => exists o, _id doc = Oid o) (find d "restaurant") ->
  exists d' c new,
    seed_data (Some d) = (Some d', inr c)
    /\ find d' "menuitem" = (find d "menuitem" ++ new)%list
    /\ Forall (fun doc =>
         exists s o,
           reference doc = Some s
           /\ String.length s = 24%nat
           /\ ObjectId_of_str s = inr o) new.
Proof.
  intros Hids. unfold seed_data.
  set (names := list_collection_names d).
  set (c0 := {| restaurants := 0; menuitem := 0 |}).
  destruct (seed_restaurants_spec names d c0)
    as (new1 & Hnew1 & Hr1 & Hm1 & _ & _).
  destruct (seed_restaurants names (d, c0)) as [d1 c1] eqn:Hst1.
  cbn [fst snd] in Hr1, Hm1.
  assert (Hids1 : Forall (fun doc => exists o, _id doc = Oid o)
                    (find d1 "restaurant")).
  { rewrite Hr1. apply Forall_app. split; [exact Hids|].
    destruct Hnew1 as [-> | ->]; [constructor | apply new_documents_Oid]. }
  destruct (seed_menuitems_spec names d1 c1)
    as (new & Hnew & Hm2 & _ & _ & _).
  destruct (seed_menuitems names (d1, c1)) as [d2 c2] eqn:Hst2.
  cbn [fst snd] in Hm2.
  exists d2, c2, new. split; [reflexivity|].
  split; [by rewrite Hm2, Hm1|].
  destruct Hnew as [-> | (a & b & t & Hl & ->)]; [constructor|].
  destruct (find d1 "restaurant") as [|r0 rest] eqn:Hrs; [discriminate|].
  assert (H0 : exists o, _id r0 = Oid o) by (by inversion Hids1).
  assert (H1 : exists o, _id (nth 1 (r0 :: rest) r0) = Oid o)
    by (by apply (nth_Forall (fun doc => exists o, _id doc = Oid o))).
  assert (H2 : exists o, _id (nth 2 (r0 :: rest) r0) = Oid o)
    by (by apply (nth_Forall (fun doc => exists o, _id doc = Oid o))).
  destruct H0 as [o0 E0], H1 as [o1 E1], H2 as [o2 E2].
  rewrite linked_ids_nth, E0, E1, E2 in Hl. injection Hl as <- <- <-.
  cbn [sample_items map new_documents].
  repeat constructor;
    (eexists _, _; split;
       [reflexivity | split; [apply length_hex_of | apply ObjectId_of_str_str]]).
Qed.

Lemma seeded_references_are_identifiers_witness :
  Forall (fun doc => exists o, _id doc = Oid o)
    (find db_restaurants_only "restaurant")
  /\ exists d' new,
       fst (seed_data (Some db_restaurants_only)) = Some d'
       /\ find d' "menuitem" = new
       /\ Forall (fun doc =>
            exists s o,
              reference doc = Some s /\ ObjectId_of_str s = inr o) new.
Proof.
  assert (H : Forall (fun doc => exists o, _id doc = Oid o)
                (find db_restaurants_only "restaurant")).
  { repeat constructor. by eexists. }
  split; [exact H|].
  destruct (seeded_references_are_identifiers db_restaurants_only H)
    as (d' & c & new & H1 & H2 & H3).
  exists d', new. rewrite H1. split; [reflexivity|]. split; [exact H2|].
  eapply Forall_impl; [exact H3|].
  intros doc (s & o & Hs & _ & Ho). eauto.
Defined.

(** X12: the two listings hand out every document with its identifier
    turned into its string and its fields as stored, in storage order;
    the restaurant listing has as many entries as the collection has
    documents, and turning the identifiers into strings once more changes
    nothing. *)
Theorem listings_stringified x d :
  exists rs ms,
    list_restaurants (Some d) = inr rs
    /\ list_menu x (Some d) = inr ms
    /\ Z.of_nat (length rs) = count_documents d "restaurant"
    /\ map fields rs = map fields (find d "restaurant")
    /\ map _id rs
       = map (fun doc => IdStr (str_id (_id doc))) (find d "restaurant")
    /\ Forall (fun doc =>
         exists stored,
           In stored (find d "menuitem")
           /\ _id doc = IdStr (str_id (_id stored))
           /\ fields doc = fields stored) ms
    /\ map _stringify_id rs = rs
    /\ map _stringify_id ms = ms.
Proof.
  exists (map _stringify_id (find d "restaurant")),
         (map _stringify_id (List.filter (refers_to x) (find d "menuitem"))).
  split; [apply list_restaurants_spec|]. split; [apply list_menu_spec|].
  split; [unfold count_documents; by rewrite length_map|].
  split; [by rewrite map_map|]. split; [by rewrite map_map|].
  split; [|split; by rewrite map_map].
  apply List.Forall_forall. intros doc Hin. apply in_map_iff in Hin.
  destruct Hin as (stored & <- & Hin). apply filter_In in Hin as [Hin _].
  by exists stored.
Qed.

(** ** The schema listing and the diagnostics *)

(** X13: every collection that seeding or the order route writes to is one
    of those [get_schema] names. *)
Theorem written_collections_in_schema d name :
  (forall d' c,
     seed_data (Some d) = (Some d', inr c) ->
     find d' name <> find d name -> In name get_schema)
  /\ (forall body d' out,
        post_orders body (Some d) = (Some d', out) ->
        find d' name <> find d name -> In name get_schema).
Proof.
  split.
  - intros d' c Hseed Hchg.
    destruct (string_dec name "restaurant") as [->|Hn1];
      [simpl; tauto|].
    destruct (string_dec name "menuitem") as [->|Hn2];
      [simpl; tauto|].
    exfalso. apply Hchg. unfold seed_data in Hseed.
    injection Hseed as <- _.
    by rewrite seed_menuitems_frame, seed_restaurants_frame.
  - intros body d' out Hout Hchg.
    destruct (string_dec name "order") as [->|Hn]; [simpl; tauto|].
    exfalso. apply Hchg. unfold post_orders in Hout.
    destruct (validate_CreateOrder body) as [e|payload];
      [by injection Hout as <- _|].
    rewrite create_order_spec in Hout.
    destruct (quantities_convertible _); [|by injection Hout as <- _].
    injection Hout as <- _. apply find_create_document_ne. congruence.
Qed.

Lemma seed_db0_eq :
  seed_data (Some db0) = (Some db_seeded, inr fresh_counts).
Proof. vm_compute. reflexivity. Qed.

Lemma written_collections_in_schema_witness :
  find db_seeded "restaurant" <> find db0 "restaurant"
  /\ In "restaurant" get_schema.
Proof.
  assert (H : find db_seeded "restaurant" <> find db0 "restaurant")
    by (vm_compute; discriminate).
  split; [exact H|].
  exact (proj1 (written_collections_in_schema db0 "restaurant")
           db_seeded fresh_counts seed_db0_eq H).
Defined.



(** ** Integers that convert to a float *)

Lemma digits2_pos_size p : digits2_pos p = Pos.size p.
Proof. induction p; simpl; congruence. Qed.

Lemma Zdigits2_bound m k :
  0 <= k -> 0 <= m < 2 ^ k -> 0 <= Zdigits2 m <= k.
Proof.
  intros Hk [Hm0 Hm]. destruct m as [|p|p]; simpl; try lia.
  rewrite digits2_pos_size. split; [lia|].
  assert (H2 : (2 ^ Pos.size p <= p~0)%positive) by apply Pos.size_le.
  apply Pos2Z.pos_le_pos in H2.
  rewrite Pos2Z.inj_pow in H2.
  change (Z.pos p~0) with (2 * Z.pos p) in H2.
  destruct (Z_le_gt_dec (Z.pos (Pos.size p)) k) as [|Hgt]; [done|].
  assert (H3 : 2 ^ (k + 1) <= 2 ^ Z.pos (Pos.size p))
    by (apply Z.pow_le_mono_r; lia).
  rewrite Z.pow_add_r in H3 by lia. lia.
Qed.

Lemma iter_pos_invariant {A} (f : A -> A) (P : A -> Prop) :
  (forall x, P x -> P (f x)) ->
  forall n x, P x -> P (SpecFloat.iter_pos f n x).
Proof.
  intros Hf. induction n as [n IH|n IH|]; intros x Hx; simpl; auto.
Qed.

Lemma shr_1_bound mrs b :
  0 <= shr_m mrs <= b -> 0 <= shr_m (shr_1 mrs) <= b.
Proof.
  destruct mrs as [m r s]. simpl. intros H.
  destruct m as [|[p|p|]|[p|p|]]; simpl; lia.
Qed.

Lemma shr_bound mrs e n b :
  0 <= shr_m mrs <= b ->
  0 <= shr_m (fst (shr mrs e n)) <= b /\ snd (shr mrs e n) <= Z.max e (e + n).
Proof.
  intros H. unfold shr. destruct n as [|p|p]; simpl; try (split; [done | lia]).
  split; [|lia].
  apply (iter_pos_invariant shr_1 (fun x => 0 <= shr_m x <= b)); [|done].
  intros x. apply shr_1_bound.
Qed.

Lemma shr_record_of_loc_m m l : shr_m (shr_record_of_loc m l) = m.
Proof. by destruct l as [|[]]. Qed.

Lemma shr_fexp_bound m e l k :
  0 <= k -> 0 <= m < 2 ^ k ->
  0 <= shr_m (fst (shr_fexp Py.prec Py.emax m e l)) < 2 ^ k
  /\ snd (shr_fexp Py.prec Py.emax m e l)
     <= Z.max e (Z.max (k + e - Py.prec) (emin Py.prec Py.emax)).
Proof.
  intros Hk Hm. unfold shr_fexp.
  set (n := fexp Py.prec Py.emax (Zdigits2 m + e) - e).
  destruct (shr_bound (shr_record_of_loc m l) e n (2 ^ k - 1)) as [H1 H2].
  { rewrite shr_record_of_loc_m. lia. }
  split; [lia|].
  assert (Hd := Zdigits2_bound m k Hk Hm).
  subst n. unfold fexp in *. lia.
Qed.

Lemma round_nearest_even_bound m l : m <= round_nearest_even m l <= m + 1.
Proof. destruct l as [|[]]; simpl; try lia. destruct (Z.even m); lia. Qed.

(** Rounding a mantissa of at most [k] bits does not overflow while the
    exponent stays small. *)
Lemma binary_round_aux_finite s m e l k :
  0 <= k -> 0 <= m < 2 ^ k ->
  emin Py.prec Py.emax <= e <= Py.emax - Py.prec ->
  k + 1 + Z.max e (k + e - Py.prec) <= Py.emax ->
  match binary_round_aux Py.prec Py.emax s m e l with
  | S754_infinity _ => False
  | _ => True
  end.
Proof.
  intros Hk Hm He Hke. unfold binary_round_aux.
  destruct (shr_fexp_bound m e l k Hk Hm) as [H1 H2].
  destruct (shr_fexp Py.prec Py.emax m e l) as [mrs' e'].
  cbn [fst snd] in H1, H2.
  set (m1 := round_nearest_even (shr_m mrs') (loc_of_shr_record mrs')).
  assert (Hm1 := round_nearest_even_bound (shr_m mrs')
                   (loc_of_shr_record mrs')).
  fold m1 in Hm1.
  assert (Hm1k : 0 <= m1 < 2 ^ (k + 1)).
  { rewrite Z.pow_add_r by lia. lia. }
  destruct (shr_fexp_bound m1 e' loc_Exact (k + 1) ltac:(lia) Hm1k)
    as [H3 H4].
  destruct (shr_fexp Py.prec Py.emax m1 e' loc_Exact) as [mrs'' e''].
  cbn [fst snd] in H3, H4.
  destruct (shr_m mrs''); [done| |done].
  destruct (e'' <=? Py.emax - Py.prec) eqn:Hle; [done|].
  apply Z.leb_gt in Hle. unfold emin, Py.prec, Py.emax in *. lia.
Qed.

Lemma iter_xO_value p d : Z.pos (Pos.iter xO p d) = Z.pos p * 2 ^ Z.pos d.
Proof.
  induction d as [|d IH] using Pos.peano_ind.
  - simpl. lia.
  - rewrite Pos.iter_succ, Pos2Z.inj_xO, IH, Pos2Z.inj_succ, Z.pow_succ_r
      by lia.
    lia.
Qed.

(** An int that fits in 64 bits converts to a float. *)
Lemma small_int_convertible n :
  0 <= n < 2 ^ 63 -> convertible n = true.
Proof.
  intros Hn. unfold convertible, float_of_int, binary_normalize.
  destruct n as [|p|p]; [done| |lia].
  unfold binary_round.
  assert (Hd := Zdigits2_bound (Z.pos p) 63 ltac:(lia) Hn). simpl in Hd.
  set (ex := fexp Py.prec Py.emax (Z.pos (digits2_pos p) + 0)).
  assert (Hex : -52 <= ex <= 10).
  { subst ex. unfold fexp, emin, Py.prec, Py.emax. lia. }
  unfold shl_align.
  destruct (ex - 0) as [|q|q] eqn:Hq.
  - assert (H := binary_round_aux_finite false (Z.pos p) 0 loc_Exact 63).
    destruct (binary_round_aux _ _ _ _ _ _); try done.
    exfalso. apply H; unfold emin, Py.prec, Py.emax; lia.
  - assert (H := binary_round_aux_finite false (Z.pos p) 0 loc_Exact 63).
    destruct (binary_round_aux _ _ _ _ _ _); try done.
    exfalso. apply H; unfold emin, Py.prec, Py.emax; lia.
  - assert (Hv := iter_xO_value p q).
    assert (Hq52 : Z.pos q <= 52) by lia.
    assert (Hp : 2 ^ Z.pos q <= 2 ^ 52) by (apply Z.pow_le_mono_r; lia).
    assert (H := binary_round_aux_finite false (Z.pos (Pos.iter xO p q)) ex
                   loc_Exact 115).
    destruct (binary_round_aux _ _ _ _ _ _); try done.
    exfalso. apply H; unfold emin, Py.prec, Py.emax; try lia.
    rewrite Hv. split; [lia|].
    change (2 ^ 115) with (2 ^ 63 * 2 ^ 52). nia.
Qed.

Lemma small_quantities_convertible items :
  Forall (fun i => 1 <= OrderItem.quantity i) items ->
  Forall (fun i => OrderItem.quantity i < 2 ^ 63) items ->
  quantities_convertible items = true.
Proof.
  intros H1 H2. unfold quantities_convertible. apply forallb_forall.
  intros i Hi. rewrite List.Forall_forall in H1, H2.
  specialize (H1 i Hi). specialize (H2 i Hi).
  apply small_int_convertible. lia.
Qed.

(** What passes validation has every quantity at 1 or more. *)
Lemma validated_quantities body payload :
  validate_CreateOrder body = inr payload ->
  Forall (fun i => 1 <= OrderItem.quantity i) (CreateOrder.items payload).
Proof.
  intros Hv. destruct (well_formed body) eqn:Hwf.
  - rewrite (validate_CreateOrder_well_formed body Hwf) in Hv.
    injection Hv as <-. by apply payload_of_quantities.
  - destruct (validate_CreateOrder_ill_formed body Hwf) as (f & m & He).
    rewrite He in Hv. discriminate.
Qed.

(** ** The claims on linkage, on the menu listing and on existence checks *)

Lemma map_fields_new_documents oid ms :
  map fields (new_documents oid ms) = ms.
Proof.
  revert oid. induction ms as [|m ms IH]; intros oid; simpl; [done|].
  by rewrite IH.
Qed.

(** C6: when the menuitem collection is empty, seeding inserts the four
    sample items, and each carries as its restaurant reference the string
    form of the identifier of a restaurant that is in the store at that
    time: the first two that of the first restaurant, the third that of
    the second, the fourth that of the third, the first restaurant
    standing in for a second or third that does not exist.  When the
    collection is not empty no item is inserted. *)
Theorem seeded_items_linked d :
  exists d' c new,
    seed_data (Some d) = (Some d', inr c)
    /\ find d' "menuitem" = (find d "menuitem" ++ new)%list
    /\ menuitem c = Z.of_nat (length new)
    /\ Forall (fun doc =>
         exists m r,
           fields doc = Of_MenuItem m
           /\ In r (find d' "restaurant")
           /\ MenuItem.restaurant_id m = str_id (_id r)) new
    /\ match find d "menuitem" with
       | _ :: _ => new = []
       | [] =>
           exists r0 rest,
             find d' "restaurant" = r0 :: rest
             /\ map fields new
                = map Of_MenuItem
                    (sample_items (_id r0) (_id (nth 1 (r0 :: rest) r0))
                       (_id (nth 2 (r0 :: rest) r0)))
             /\ map reference new
                = [ Some (str_id (_id r0));
                    Some (str_id (_id r0));
                    Some (str_id (_id (nth 1 (r0 :: rest) r0)));
                    Some (str_id (_id (nth 2 (r0 :: rest) r0))) ]
       end.
Proof.
  unfold seed_data.
  set (names := list_collection_names d).
  set (c0 := {| restaurants := 0; menuitem := 0 |}).
  destruct (seed_restaurants_spec names d c0)
    as (new1 & _ & _ & Hm1 & Hc1 & Hr1).
  destruct (seed_restaurants names (d, c0)) as [d1 c1] eqn:Hst1.
  cbn [fst snd] in Hm1, Hc1, Hr1.
  destruct (find d "menuitem") as [|m0 ms] eqn:Hmd.
  - destruct (find d1 "restaurant") as [|r0 rest] eqn:Hrs; [done|].
    rewrite (seed_menuitems_nil names d1 c1 r0 rest Hm1 Hrs).
    remember (fold_left (loop_step "menuitem" Of_MenuItem bump_menuitem) _
                (d1, c1)) as st2 eqn:Hst2.
    destruct st2 as [d2 c2]. symmetry in Hst2.
    destruct (menu_loop_spec _ _ _ _ _ _ _ Hst2) as (M1 & M2 & ->).
    assert (Hr2 : find d2 "restaurant" = r0 :: rest)
      by (rewrite M2 by discriminate; exact Hrs).
    rewrite Hm1 in M1. cbn [app] in M1.
    assert (H0 : In r0 (r0 :: rest)) by (by left).
    assert (H1 : In (nth 1 (r0 :: rest) r0) (r0 :: rest)).
    { destruct rest as [|r1 rest]; simpl; auto. }
    assert (H2 : In (nth 2 (r0 :: rest) r0) (r0 :: rest)).
    { destruct rest as [|r1 [|r2 rest]]; simpl; auto. }
    eexists d2, _, _. cbn [fst snd]. split; [reflexivity|].
    split; [exact M1|]. rewrite Hr2.
    split; [subst c1; reflexivity|].
    split.
    + cbn [sample_items map new_documents].
      constructor; [by eexists _, r0|].
      constructor; [by eexists _, r0|].
      constructor; [by eexists _, (nth 1 (r0 :: rest) r0)|].
      constructor; [by eexists _, (nth 2 (r0 :: rest) r0)|].
      constructor.
    + exists r0, rest. split; [reflexivity|].
      split; [apply map_fields_new_documents | reflexivity].
  - rewrite seed_menuitems_cons.
    + exists d1, c1, []. cbn [fst snd]. split; [reflexivity|].
      rewrite app_nil_r. split; [exact Hm1|].
      split; [subst c1; reflexivity|]. split; [constructor | reflexivity].
    + apply listed_nonempty. by rewrite Hmd.
    + by rewrite Hm1.
Qed.

Lemma seeded_items_linked_witness :
  find db_restaurants_only "menuitem" = []
  /\ exists d' new r0 rest,
       fst (seed_data (Some db_restaurants_only)) = Some d'
       /\ find d' "menuitem" = new
       /\ length new = 4%nat
       /\ find d' "restaurant" = r0 :: rest
       /\ map reference new
          = [ Some (str_id (_id r0));
              Some (str_id (_id r0));
              Some (str_id (_id (nth 1 (r0 :: rest) r0)));
              Some (str_id (_id (nth 2 (r0 :: rest) r0))) ].
Proof.
  assert (E : find db_restaurants_only "menuitem" = []) by reflexivity.
  split; [exact E|].
  destruct (seeded_items_linked db_restaurants_only)
    as (d' & c & new & H1 & H2 & _ & _ & H5).
  rewrite E in H2, H5. destruct H5 as (r0 & rest & Hr & Hf & Href).
  exists d', new, r0, rest. rewrite H1. split; [reflexivity|].
  split; [exact H2|]. split; [|split; [exact Hr | exact Href]].
  rewrite <- (length_map fields), Hf. reflexivity.
Defined.

Lemma filter_none {A} (f : A -> bool) (l : list A) :
  (forall x, In x l -> f x = false) -> List.filter f l = [].
Proof.
  induction l as [|a l IH]; intros H; simpl; [done|].
  rewrite (H a) by (by left). apply IH. intros x Hx. apply H. by right.
Qed.

(** On a store that keeps the link, no menu item refers to a string that
    does not read as an identifier. *)
Lemma linked_reference_parses d doc s :
  linked d = true -> In doc (find d "menuitem") -> reference doc = Some s ->
  exists o, ObjectId_of_str s = inr o.
Proof.
  intros Hl Hin Href. unfold linked in Hl.
  rewrite forallb_forall in Hl. specialize (Hl doc Hin).
  rewrite Href in Hl. apply existsb_exists in Hl as (r & _ & Hr).
  unfold names_restaurant in Hr. destruct (_id r) as [o|]; [|done].
  apply String.eqb_eq in Hr. subst s. eexists. apply ObjectId_of_str_str.
Qed.

(** C7: on a store, listing the menu for a string [x] never fails and
    returns, with the identifier turned into a string, exactly the
    documents of the menuitem collection whose restaurant_id is the
    string [x], and none whose reference differs.  When [x] does not read
    as an identifier the query still goes through, and on a store whose
    menu items refer to stored restaurants it returns the empty list. *)
Theorem list_menu_filters x d :
  exists docs,
    list_menu x (Some d) = inr docs
    /\ docs = map _stringify_id (List.filter (refers_to x) (find d "menuitem"))
    /\ (forall doc,
          In doc docs <->
          exists stored,
            In stored (find d "menuitem")
            /\ reference stored = Some x
            /\ doc = _stringify_id stored)
    /\ (forall i m,
          reference (mkdoc i (Of_MenuItem m)) = Some (MenuItem.restaurant_id m))
    /\ (forall e,
          ObjectId_of_str x = inl e -> linked d = true -> docs = []).
Proof.
  eexists. split; [apply list_menu_spec|]. split; [reflexivity|].
  split; [|split; [reflexivity|]].
  - intros doc. rewrite in_map_iff. split.
    + intros (stored & <- & Hin). apply filter_In in Hin as [Hin Hx].
      exists stored. by rewrite <- refers_to_true.
    + intros (stored & Hin & Hx & ->). exists stored. split; [done|].
      apply filter_In. by rewrite refers_to_true.
  - intros e Hbad Hl. rewrite filter_none; [done|].
    intros doc Hin. destruct (refers_to x doc) eqn:Hx; [|done].
    apply refers_to_true in Hx.
    destruct (linked_reference_parses d doc x Hl Hin Hx) as [o Ho].
    rewrite Ho in Hbad. discriminate.
Qed.

Lemma list_menu_filters_witness :
  ObjectId_of_str "pasta-palace" = inl (Py.InvalidId "pasta-palace")
  /\ linked db_seeded = true
  /\ list_menu "pasta-palace" (Some db_seeded) = inr [].
Proof.
  assert (Hl : linked db_seeded = true) by (vm_compute; reflexivity).
  split; [reflexivity|]. split; [exact Hl|].
  destruct (list_menu_filters "pasta-palace" db_seeded)
    as (docs & Hout & _ & _ & _ & Hempty).
  rewrite (Hempty (Py.InvalidId "pasta-palace") eq_refl Hl) in Hout.
  exact Hout.
Defined.

(** C9, as the code has it: a body that passes validation, whose
    quantities fit in 64 bits and whose total is finite, is stored as an
    order and answered with success, whatever the store holds: neither
    [restaurant_id] nor any [menu_item_id] is looked up, and the
    restaurant and menuitem collections are not touched. *)
Theorem no_existence_check body payload d :
  validate_CreateOrder body = inr payload ->
  Forall (fun i => OrderItem.quantity i < 2 ^ 63) (CreateOrder.items payload) ->
  Py.is_finite (rounded_total (CreateOrder.items payload)) = true ->
  exists d',
    post_orders body (Some d)
    = (Some d',
       inr {| order_id := str_ObjectId (next_oid d);
              status := "pending";
              total := rounded_total (CreateOrder.items payload) |})
    /\ find d' "order"
       = (find d "order"
          ++ [mkdoc (Oid (next_oid d))
                (Of_Order
                   (order_of payload
                      (rounded_total (CreateOrder.items payload))))])%list
    /\ find d' "restaurant" = find d "restaurant"
    /\ find d' "menuitem" = find d "menuitem".
Proof.
  intros Hv Hsmall Hfin.
  assert (Hq := small_quantities_convertible _
                  (validated_quantities body payload Hv) Hsmall).
  rewrite (post_orders_valid body payload d Hv), Hq.
  unfold render. cbn [total]. rewrite Hfin.
  eexists. split; [reflexivity|]. split; [apply find_create_document|].
  split; by apply find_create_document_ne.
Qed.

Lemma no_existence_check_witness :
  find db0 "restaurant" = [] /\ find db0 "menuitem" = []
  /\ validate_CreateOrder body_unknown_ids = inr payload_unknown_ids
  /\ Forall (fun i => OrderItem.quantity i < 2 ^ 63)
       (CreateOrder.items payload_unknown_ids)
  /\ Py.is_finite (rounded_total (CreateOrder.items payload_unknown_ids))
     = true
  /\ exists d',
       fst (post_orders body_unknown_ids (Some db0)) = Some d'
       /\ length (find d' "order") = 1%nat.
Proof.
  assert (Hs : Forall (fun i => OrderItem.quantity i < 2 ^ 63)
                 (CreateOrder.items payload_unknown_ids)).
  { repeat constructor. }
  split; [reflexivity|]. split; [reflexivity|].
  split; [reflexivity|]. split; [exact Hs|]. split; [reflexivity|].
  destruct (no_existence_check body_unknown_ids payload_unknown_ids db0
              eq_refl Hs eq_refl)
    as (d' & Hout & Horder & _).
  exists d'. split; [by rewrite Hout | by rewrite Horder].
Defined.

(** A total that is not finite: the order is stored, and writing the
    response fails afterwards. *)
Lemma non_finite_total_stored :
  exists d' order,
    post_orders body_huge_total (Some db0) = (Some d', inl not_json)
    /\ find d' "order" = [mkdoc (Oid 0%N) (Of_Order order)]
    /\ Order.total order = S754_infinity false.
Proof.
  eexists _, _. split; [vm_compute; reflexivity|]. split; reflexivity.
Qed.

(** ** The validator, failures of the order route, and the diagnostics *)

(** X4: on bodies whose values, where present, have the type their field
    declares, the validator of an order body accepts exactly those that
    carry the four strings and an item list in which every item has an
    identifier, a name and a price and has no quantity or one of at
    least 1.  What it hands to the handler is the body as sent, with 1
    for a missing quantity; any other such body is answered with a
    validation error and the store is left alone.  Prices, the length of
    the list and undeclared keys play no part. *)
Theorem body_accepted_iff_well_formed body db :
  (well_formed body = true ->
     validate_CreateOrder body = inr (payload_of body))
  /\ (well_formed body = false -> rejected db (post_orders body db)).
Proof.
  split; intros H.
  - by apply validate_CreateOrder_well_formed.
  - destruct (validate_CreateOrder_ill_formed body H) as (f & m & Hv).
    unfold rejected, post_orders. rewrite Hv. eauto.
Qed.

Lemma body_accepted_iff_well_formed_witness :
  well_formed body_no_quantity = true
  /\ well_formed body_no_phone = false
  /\ validate_CreateOrder body_no_quantity = inr (payload_of body_no_quantity)
  /\ map OrderItem.quantity (CreateOrder.items (payload_of body_no_quantity))
     = [1]
  /\ rejected (Some db0) (post_orders body_no_phone (Some db0)).
Proof.
  split; [reflexivity|]. split; [reflexivity|]. split.
  - exact (proj1 (body_accepted_iff_well_formed body_no_quantity (Some db0))
             eq_refl).
  - split; [reflexivity|].
    exact (proj2 (body_accepted_iff_well_formed body_no_phone (Some db0))
             eq_refl).
Defined.

(** X6: a request to the order route that is answered with an error
    leaves the store exactly as it was, with one exception: when the
    total is not finite the order has been stored by the time writing
    the response fails. *)
Theorem order_error_and_store body db db' e :
  post_orders body db = (db', inl e) ->
  db' = db
  \/ exists d payload order,
       db = Some d
       /\ validate_CreateOrder body = inr payload
       /\ order = order_of payload (rounded_total (CreateOrder.items payload))
       /\ db' = Some (snd (create_document "order" (Of_Order order) d))
       /\ Py.is_finite (Order.total order) = false
       /\ e = not_json.
Proof.
  intros Hout.
  destruct (validate_CreateOrder body) as [e'|payload] eqn:Hv.
  - left. unfold post_orders in Hout. rewrite Hv in Hout.
    by injection Hout as <- _.
  - destruct db as [d|].
    + rewrite (post_orders_valid body payload d Hv) in Hout.
      destruct (quantities_convertible _);
        [|left; by injection Hout as <- _].
      unfold render in Hout. cbn [total] in Hout.
      destruct (Py.is_finite _) eqn:Hfin; [discriminate|].
      injection Hout as <- <-. right.
      exists d, payload,
        (order_of payload (rounded_total (CreateOrder.items payload))).
      by repeat split.
    + left. unfold post_orders in Hout. rewrite Hv in Hout.
      by injection Hout as <- _.
Qed.

Lemma order_error_and_store_witness :
  post_orders (body_with [raw_item (2 ^ 1024) (Py.ratio 1499 100)]) (Some db0)
  = (Some db0, inl overflow)
  /\ exists d',
       post_orders body_huge_total (Some db0) = (Some d', inl not_json)
       /\ (Some d' = Some db0
           \/ exists d payload order,
                Some db0 = Some d
                /\ validate_CreateOrder body_huge_total = inr payload
                /\ order
                   = order_of payload
                       (rounded_total (CreateOrder.items payload))
                /\ Some d'
                   = Some (snd (create_document "order" (Of_Order order) d))
                /\ Py.is_finite (Order.total order) = false
                /\ not_json = not_json).
Proof.
  split; [vm_compute; reflexivity|].
  destruct non_finite_total_stored as (d' & order & Hout & _).
  exists d'. split; [exact Hout|].
  exact (order_error_and_store body_huge_total (Some db0) (Some d') not_json
           Hout).
Defined.

Lemma len_take n s : Py.len (Py.take n s) = Nat.min n (Py.len s).
Proof.
  revert n. induction s as [|c s IH]; intros n; simpl.
  - by destruct n.
  - destruct (Py.is_continuation c) eqn:Hc; simpl; rewrite ?Hc.
    + apply IH.
    + destruct n as [|n]; simpl; [done|]. by rewrite Hc, IH.
Qed.

Lemma take_prefix n s : String.prefix (Py.take n s) s = true.
Proof.
  revert n. induction s as [|c s IH]; intros n; simpl; [done|].
  destruct (Py.is_continuation c).
  - simpl. destruct (ascii_dec c c); [apply IH | done].
  - destruct n as [|n]; simpl; [done|].
    destruct (ascii_dec c c); [apply IH | done].
Qed.

(** X14: the diagnostics report.  It names at most ten collections, the
    first ten the store lists; it says "Connected" exactly when there is a
    store handle, and without one it gives no database_url, no
    database_name and no collections; when listing the collections fails
    it carries no collections and shows the first 50 characters of the
    error text, or all of it if it is shorter; an empty DATABASE_URL
    counts as not set. *)
Theorem diagnostics_report url db name list_names :
  let r := test_database url db name list_names in
  (length (Diagnostics.collections r) <= 10)%nat
  /\ (forall d names,
        db = Some d -> list_names d = inr names ->
        Diagnostics.collections r = firstn 10 names
        /\ Diagnostics.database r = "✅ Connected & Working")
  /\ (forall d e,
        db = Some d -> list_names d = inl e ->
        Diagnostics.collections r = []
        /\ exists text,
             Diagnostics.database r
             = String.append "⚠️  Connected but Error: " text
             /\ Py.len text = Nat.min 50 (Py.len e)
             /\ String.prefix text e = true)
  /\ (Diagnostics.connection_status r = "Connected" <-> db <> None)
  /\ (db = None ->
      Diagnostics.database_url r = None
      /\ Diagnostics.database_name r = None
      /\ Diagnostics.collections r = [])
  /\ (db <> None -> url = Some EmptyString ->
      Diagnostics.database_url r = Some "❌ Not Set").
Proof.
  intros r. subst r. unfold test_database.
  destruct db as [d|].
  - destruct (list_names d) as [e|names] eqn:Hl; cbn [Diagnostics.collections
      Diagnostics.database Diagnostics.connection_status
      Diagnostics.database_url Diagnostics.database_name].
    + split; [simpl; lia|].
      split; [intros d0 names [= <-]; by rewrite Hl|].
      split.
      { intros d0 e0 [= <-]. rewrite Hl. intros [= <-].
        split; [done|]. exists (Py.take 50 e).
        split; [done|].
        split; [apply len_take | apply take_prefix]. }
      split; [done|]. split; [done|]. by intros _ ->.
    + split; [rewrite length_firstn; lia|].
      split; [intros d0 n0 [= <-]; rewrite Hl; by intros [= <-]|].
      split; [intros d0 e0 [= <-]; by rewrite Hl|].
      split; [done|]. split; [done|]. by intros _ ->.
  - cbn [Diagnostics.collections Diagnostics.database
         Diagnostics.connection_status Diagnostics.database_url
         Diagnostics.database_name].
    split; [simpl; lia|]. split; [done|]. split; [done|].
    split; [split; [discriminate | done]|]. split; done.
Qed.

Lemma diagnostics_report_witness :
  Diagnostics.collections
    (test_database (Some EmptyString) (Some db_seeded) (Some "food")
       (fun d => inr (list_collection_names d)))
  = firstn 10 (list_collection_names db_seeded)
  /\ Diagnostics.database_url
       (test_database (Some EmptyString) (Some db_seeded) (Some "food")
          (fun d => inr (list_collection_names d)))
     = Some "❌ Not Set"
  /\ exists text,
       Diagnostics.database
         (test_database None (Some db0) None (fun _ => inl long_error))
       = String.append "⚠️  Connected but Error: " text
       /\ Py.len text = 50%nat
       /\ String.length text = 100%nat.
Proof.
  destruct (diagnostics_report (Some EmptyString) (Some db_seeded)
              (Some "food") (fun d => inr (list_collection_names d)))
    as (_ & H2 & _ & _ & _ & H6).
  split; [exact (proj1 (H2 db_seeded (list_collection_names db_seeded)
                          eq_refl eq_refl))|].
  split; [exact (H6 ltac:(discriminate) eq_refl)|].
  exists (Py.take 50 long_error). split; [reflexivity|].
  split; vm_compute; reflexivity.
Defined.
